(** * Graceful shutdown of the conference focus: script/graceful_shutdown.py

    A shallow embedding of the script and the properties of its shutdown
    handshake and polling loop.

    - [Xml], [Py]: the values the script handles (ElementTree elements,
      the Python values a counter extraction can return).
    - [Stanza]: the Iq envelope, the two payload classes, StanzaError.
    - [Runtime]: the effects of the script (requests sent, sleeps,
      disconnects, log lines, the global exit code) as a state-and-exception
      monad over a world, with the XMPP peer as an oracle.
    - then the functions of the script, in the order of the source, and the
      properties proved about them. *)

From Stdlib Require Import ZArith Lia.
From stdpp Require Import base option list strings gmap pretty.

Local Open Scope Z_scope.
Local Open Scope string_scope.
Local Open Scope list_scope.

(** ** XML elements (xml.etree.ElementTree.Element) *)

Module Xml.

(** An element has a qualified tag, a dictionary of attributes and its
    child elements in document order. *)
#[warnings="-register-all"]
Inductive Element : Type :=
  mkElement { tag : string;
              attrib : gmap string string;
              children : list Element }.

(** [Element.get(key)]: the attribute, or None. *)
Definition get (e : Element) (key : string) : option string :=
  attrib e !! key.

(** [Element.findall(tag)] with a plain tag path: the direct children
    carrying that tag, in document order. *)
Definition findall (e : Element) (t : string) : list Element :=
  filter (λ c, tag c = t) (children e).

End Xml.

(** ** Python values *)

Module Py.

(** What [get_conferences] can return: an attribute string, None (the
    attribute is missing), or an integer. *)
Inductive Value : Type :=
| Str (s : string)
| NoneV
| Int (z : Z).

#[global] Instance Value_eq_dec : EqDecision Value.
Proof. solve_decision. Defined.

(** [a == b] on these values: a string equals only the same string, None
    only None, an integer only the same integer. *)
Definition eqb (a b : Value) : bool := bool_decide (a = b).

(** [str(v)]. *)
Definition str (v : Value) : string :=
  match v with
  | Str s => s
  | NoneV => "None"
  | Int z => pretty z
  end.

(** The result of [Element.get] as a Python value. *)
Definition of_attr (o : option string) : Value :=
  match o with
  | Some s => Str s
  | None => NoneV
  end.

End Py.

(** ** Stanzas (sleekxmpp) *)

Module Stanza.

(** The class attributes of an [ElementBase] subclass. *)
Record ElementBase : Type :=
  mkElementBase { name : string; namespace : string; plugin_attrib : string }.

(** The qualified tag of the XML of a stanza class. *)
Definition tag_of (cls : ElementBase) : string :=
  "{" +:+ namespace cls +:+ "}" +:+ name cls.

(** [cls()]: a fresh stanza object, an element with no attribute and no
    child. *)
Definition new (cls : ElementBase) : Xml.Element :=
  Xml.mkElement (tag_of cls) ∅ [].

(** The Iq envelope: the interfaces the script reads and writes, and the
    payload elements. *)
Record Iq : Type := mkIq { to : string; type : string; payload : list Xml.Element }.

(** [self.Iq()]. *)
Definition empty_iq : Iq := mkIq "" "" [].

Definition set_to (v : string) (iq : Iq) : Iq := mkIq v (type iq) (payload iq).
Definition set_type (v : string) (iq : Iq) : Iq := mkIq (to iq) v (payload iq).

(** [iq.set_payload(x)] appends the XML of [x]. *)
Definition set_payload (x : Xml.Element) (iq : Iq) : Iq :=
  mkIq (to iq) (type iq) (payload iq ++ [x]).

(** [iq[plugin_attrib]] for a registered plugin class: the payload element
    of that class, or a fresh one when the stanza carries none. *)
Definition plugin (iq : Iq) (cls : ElementBase) : Xml.Element :=
  match filter (λ c, Xml.tag c = tag_of cls) (payload iq) with
  | x :: _ => x
  | [] => new cls
  end.

(** The exception the script catches: its error type and its condition. *)
Record StanzaError : Type := mkStanzaError { etype : string; condition : string }.

End Stanza.

(** ** Effects *)

Module Runtime.

Import Stanza.

(** What a run does, in order: the calls it makes to the stream, to
    [time], to [logging] and to [sys.stderr]. [AssignExitCode] records an
    assignment to the global [exitCode]. *)
Inductive Event : Type :=
| Stderr (msg : string)
| Connect (host : string) (port : Z)
| Send (iq : Iq)
| Sleep (seconds : Z)
| Disconnect (wait : bool)
| LogInfo (msg : string)
| LogError (msg : string)
| AssignExitCode (v : Z).

(** What [iq.send()] gives back: the response stanza, or StanzaError
    raised. *)
Inductive Reply : Type :=
| Response (resp : Iq)
| Error (e : StanzaError).

(** The other side of the stream. [reply n] answers the [n]-th request of
    the run (counted from 0). *)
Record Peer : Type :=
  mkPeer { connect_ok : bool; session_start : bool; reply : nat → Reply }.

(** The world of a run: the global [exitCode], the local
    [shutdown_accepted] of the handler (it runs once), the events so far
    and the number of requests sent so far. *)
Record World : Type :=
  mkWorld { exitCode : Z; shutdown_accepted : bool;
            trace : list Event; sent : nat }.

(** How a computation stands: it returned, it raised, or it has not come
    back (the loop is still running when the fuel is spent, or the call
    blocks for ever). *)
Inductive Result (A : Type) : Type :=
| Returned (a : A)
| Raised (e : StanzaError)
| Pending.

Arguments Returned {A} a.
Arguments Raised {A} e.
Arguments Pending {A}.

Definition M (A : Type) : Type := World → Result A * World.

Definition ret {A} (a : A) : M A := λ w, (Returned a, w).

Definition bind {A B} (m : M A) (k : A → M B) : M B :=
  λ w, match m w with
       | (Returned a, w') => k a w'
       | (Raised e, w') => (Raised e, w')
       | (Pending, w') => (Pending, w')
       end.

#[global] Instance M_ret : MRet M := @ret.
#[global] Instance M_bind : MBind M := λ A B k m, bind m k.

Definition pending {A} : M A := λ w, (Pending, w).

(** [try: body / except StanzaError as error: handler error]. *)
Definition try_except {A} (body : M A) (handler : StanzaError → M A) : M A :=
  λ w, match body w with
       | (Raised e, w') => handler e w'
       | r => r
       end.

Definition emit (ev : Event) : M () :=
  λ w, (Returned (), mkWorld (exitCode w) (shutdown_accepted w)
                             (trace w ++ [ev]) (sent w)).

(** [global exitCode; exitCode = v]. *)
Definition set_exitCode (v : Z) : M () :=
  λ w, (Returned (), mkWorld v (shutdown_accepted w)
                             (trace w ++ [AssignExitCode v]) (sent w)).

Definition set_shutdown_accepted (b : bool) : M () :=
  λ w, (Returned (), mkWorld (exitCode w) b (trace w) (sent w)).

Definition get_shutdown_accepted : M bool :=
  λ w, (Returned (shutdown_accepted w), w).

Inductive LoopCtl : Type := Break | Continue.

(** [while True: body], the body saying whether it left by [break]. *)
Fixpoint while_true (fuel : nat) (body : M LoopCtl) : M () :=
  match fuel with
  | O => pending
  | S fuel' =>
      c ← body;
      match c with
      | Break => mret ()
      | Continue => while_true fuel' body
      end
  end.

End Runtime.

Import Stanza Runtime.

(** ** The script *)

(** [get_conferences]: the [for] loop over the stats found. The first stat
    whose name is 'conferences' decides; falling off the end gives -1. *)
Fixpoint get_conferences_loop (stats : list Xml.Element) : Py.Value :=
  match stats with
  | [] => Py.Int (-1)
  | stat :: rest =>
      let name := Xml.get stat "name" in
      let value := Xml.get stat "value" in
      if decide (name = Some "conferences") then Py.of_attr value
      else get_conferences_loop rest
  end.

Definition get_conferences (stats_xml : Xml.Element) : Py.Value :=
  get_conferences_loop
    (Xml.findall stats_xml "{http://jitsi.org/protocol/colibri}stat").

Definition ColibriStats : ElementBase :=
  mkElementBase "stats" "http://jitsi.org/protocol/colibri" "colibri-stats".

Definition GracefulShutdown : ElementBase :=
  mkElementBase "graceful-shutdown" "http://jitsi.org/protocol/colibri"
                "graceful-shutdown".

(** The fields of the bot the script uses. *)
Record FocusShutdownUserBot : Type :=
  mkBot { jid : string; password : string; focus : string }.

Definition create_request_stats_iq (self : FocusShutdownUserBot) : Iq :=
  let statsIq := empty_iq in
  let statsIq := set_to (focus self) statsIq in
  let statsIq := set_type "get" statsIq in
  let statsIq := set_payload (Stanza.new ColibriStats) statsIq in
  statsIq.

(** The shutdown request built at the head of [shutdown_focus]. *)
Definition shutdown_iq (self : FocusShutdownUserBot) : Iq :=
  let iq := empty_iq in
  let iq := set_to (focus self) iq in
  let iq := set_type "set" iq in
  let iq := set_payload (Stanza.new GracefulShutdown) iq in
  iq.

Section Run.

Variable peer : Peer.

(** [iq.send()]: the request goes out, the peer's answer to it comes back
    as the response or as StanzaError raised. *)
Definition send (iq : Iq) : M Iq :=
  λ w, let w' := mkWorld (exitCode w) (shutdown_accepted w)
                         (trace w ++ [Send iq]) (S (sent w)) in
       match reply peer (sent w) with
       | Response resp => (Returned resp, w')
       | Error e => (Raised e, w')
       end.

Definition logging_info (msg : string) : M () := emit (LogInfo msg).
Definition logging_error (msg : string) : M () := emit (LogError msg).
Definition time_sleep (seconds : Z) : M () := emit (Sleep seconds).
Definition disconnect (wait : bool) : M () := emit (Disconnect wait).

(** One turn of the [while True] loop of [shutdown_focus]. *)
Definition poll_once (self : FocusShutdownUserBot) : M LoopCtl :=
  let stats_iq := create_request_stats_iq self in
  resp ← send stats_iq;
  let stats := plugin resp ColibriStats in
  let conf_count := get_conferences stats in
  logging_info ("There are " +:+ Py.str conf_count +:+ " conferences in "
                +:+ "progress");;
  if Py.eqb conf_count (Py.Str "0") then mret Break
  else time_sleep 10;; mret Continue.

Definition shutdown_focus (fuel : nat) (self : FocusShutdownUserBot) : M () :=
  set_shutdown_accepted false;;
  let iq := shutdown_iq self in
  try_except
    (resp ← send iq;
     if decide (type resp = "result") then
       logging_info "Shutdown accepted";;
       set_shutdown_accepted true;;
       while_true fuel (poll_once self);;
       logging_info "End of shutdown procedure";;
       disconnect true
     else mret ())
    (λ error,
       accepted ← get_shutdown_accepted;
       (if negb accepted
           && bool_decide (etype error ≠ "wait")
           && bool_decide (condition error ≠ "service-unavailable")
        then set_exitCode 1;;
             logging_error "There was an error sending shutdown request."
        else mret ());;
       disconnect true).

(** The parsed command line. *)
Record Options : Type :=
  mkOptions { loglevel : Z; opt_server : option string;
              opt_jid : option string; opt_password : option string;
              opt_focus : option string }.

(** Whether the stream has been told to disconnect. *)
Definition is_disconnect (ev : Event) : bool :=
  match ev with Disconnect _ => true | _ => false end.

(** The event loop goes on until the stream has been disconnected. *)
Definition until_disconnected : M () :=
  λ w, if existsb is_disconnect (trace w) then (Returned (), w)
       else (Pending, w).

(** [xmpp.process(block=True)]: the session_start event, when the session
    starts, runs the handler; the call comes back once the stream has been
    disconnected, and a session that never starts leaves nothing to wait
    for. *)
Definition process (fuel : nat) (xmpp : FocusShutdownUserBot) : M () :=
  if session_start peer then
    shutdown_focus fuel xmpp;;
    until_disconnected
  else mret ().

(** How the process ends: [exit(code)], or it has not ended, or an
    exception escaped. *)
Inductive Outcome : Type :=
| Exited (code : Z)
| NoExit
| Uncaught (e : StanzaError).

Definition exit_with (r : Result ()) (code : Z) : Outcome :=
  match r with
  | Returned _ => Exited code
  | Raised e => Uncaught e
  | Pending => NoExit
  end.

(** The [__main__] block after option parsing and logging setup. *)
Definition main (fuel : nat) (opts : Options) (w : World) : Outcome * World :=
  match opt_server opts with
  | None => (Exited 1, (emit (Stderr "No XMPP server name specified") w).2)
  | Some server =>
  match opt_jid opts with
  | None => (Exited 1, (emit (Stderr "No user JID specified") w).2)
  | Some jid =>
  match opt_password opts with
  | None => (Exited 1, (emit (Stderr "No user password specified") w).2)
  | Some password =>
  match opt_focus opts with
  | None => (Exited 1, (emit (Stderr "No focus JID specified") w).2)
  | Some focus =>
      let xmpp := mkBot jid password focus in
      let '(r, w') :=
        (emit (Connect server 5222);;
         if connect_ok peer then
           process fuel xmpp;;
           logging_info "Done"
         else logging_error "Unable to connect.") w in
      (exit_with r (exitCode w'), w')
  end end end end.

End Run.

(** The world at process start: [exitCode = 0], nothing done yet. *)
Definition initial : World := mkWorld 0 false [] 0.

(** ** Vocabulary for the statements *)

(** The world [w] after the further events [evs] and [n] further requests. *)
Definition after (w : World) (evs : list Event) (n : nat) : World :=
  mkWorld (exitCode w) (shutdown_accepted w) (trace w ++ evs) (n + sent w).

(** Projections of a trace: the requests sent, the sleeps, the disconnects
    and the assignments to [exitCode], each in order. *)
Fixpoint sends (t : list Event) : list Iq :=
  match t with
  | [] => []
  | Send iq :: t' => iq :: sends t'
  | _ :: t' => sends t'
  end.

Fixpoint sleeps (t : list Event) : list Z :=
  match t with
  | [] => []
  | Sleep s :: t' => s :: sleeps t'
  | _ :: t' => sleeps t'
  end.

Fixpoint disconnects (t : list Event) : list bool :=
  match t with
  | [] => []
  | Disconnect b :: t' => b :: disconnects t'
  | _ :: t' => disconnects t'
  end.

Fixpoint assignments (t : list Event) : list Z :=
  match t with
  | [] => []
  | AssignExitCode v :: t' => v :: assignments t'
  | _ :: t' => assignments t'
  end.

(** The count the [i]-th request yields when it is answered by a
    response. *)
Definition poll_value (peer : Peer) (i : nat) : option Py.Value :=
  match reply peer i with
  | Response resp => Some (get_conferences (plugin resp ColibriStats))
  | Error _ => None
  end.

(** The [i]-th request is answered with a count other than '0'. *)
Definition nonzero_poll (peer : Peer) (i : nat) : Prop :=
  ∃ v, poll_value peer i = Some v ∧ v ≠ Py.Str "0".

(** The shutdown request is answered with a result. *)
Definition accepts (peer : Peer) : Prop :=
  ∃ resp, reply peer 0 = Response resp ∧ type resp = "result".

(** The log line of a poll that extracted [v]. *)
Definition count_line (v : Py.Value) : string :=
  "There are " +:+ Py.str v +:+ " conferences in " +:+ "progress".

(** The events of [n] successive polls from request [start] on, none of
    which ends the loop. *)
Fixpoint waiting_trace (self : FocusShutdownUserBot) (peer : Peer)
    (start n : nat) : list Event :=
  match n with
  | O => []
  | S n' =>
      [Send (create_request_stats_iq self);
       LogInfo (count_line (default Py.NoneV (poll_value peer start)));
       Sleep 10]
      ++ waiting_trace self peer (S start) n'
  end.

(** The handler's test on an error of the shutdown request, the flag
    apart. *)
Definition fatal (e : StanzaError) : bool :=
  bool_decide (etype e ≠ "wait")
  && bool_decide (condition e ≠ "service-unavailable").

(** The four required options are on the command line. *)
Definition all_given (opts : Options) : Prop :=
  is_Some (opt_server opts) ∧ is_Some (opt_jid opts) ∧
  is_Some (opt_password opts) ∧ is_Some (opt_focus opts).

#[global] Instance all_given_dec opts : Decision (all_given opts).
Proof. unfold all_given. apply _. Defined.

(** The connection is made and the session starts. *)
Definition session_live (peer : Peer) : Prop :=
  connect_ok peer = true ∧ session_start peer = true.

(** What a turn of the loop leaves untouched: the exit code, the flag, and
    it neither disconnects nor assigns. *)
Definition quiet_step (w w' : World) : Prop :=
  exitCode w' = exitCode w ∧ shutdown_accepted w' = shutdown_accepted w ∧
  (sent w ≤ sent w')%nat ∧
  ∃ evs, trace w' = trace w ++ evs ∧ disconnects evs = [] ∧ assignments evs = [].

(** The bot [__main__] builds from the options, and the server it connects
    to. *)
Definition bot_of (opts : Options) : FocusShutdownUserBot :=
  mkBot (default "" (opt_jid opts)) (default "" (opt_password opts))
        (default "" (opt_focus opts)).

Definition server_of (opts : Options) : string := default "" (opt_server opts).

(** Stanzas and peers for the examples. *)
Definition mk_stat (name value : string) : Xml.Element :=
  Xml.mkElement "{http://jitsi.org/protocol/colibri}stat"
                {[ "name" := name; "value" := value ]} [].

Definition mk_stats (cs : list Xml.Element) : Xml.Element :=
  Xml.mkElement "{http://jitsi.org/protocol/colibri}stats" ∅ cs.

Definition stats_result (cs : list Xml.Element) : Iq :=
  mkIq "" "result" [mk_stats cs].

Definition counting (v : string) : Reply :=
  Response (stats_result [mk_stat "threads" "12"; mk_stat "conferences" v]).

Definition accepted_reply : Reply := Response (mkIq "" "result" []).

Definition example_opts : Options :=
  mkOptions 20 (Some "xmpp.example.org") (Some "admin@example.org")
            (Some "secret") (Some "focus.example.org").

Definition example_bot : FocusShutdownUserBot :=
  mkBot "admin@example.org" "secret" "focus.example.org".

(** Accepts, then reports 5, 2 and 0 conferences. *)
Definition draining_peer : Peer :=
  mkPeer true true
         (λ n, match n with
               | 0%nat => accepted_reply
               | 1%nat => counting "5"
               | 2%nat => counting "2"
               | _ => counting "0"
               end).

(** Accepts and reports 0 conferences at once. *)
Definition idle_peer : Peer :=
  mkPeer true true
         (λ n, match n with 0%nat => accepted_reply | _ => counting "0" end).

(** Rejects the shutdown request with the given error. *)
Definition rejecting_peer (e : StanzaError) : Peer :=
  mkPeer true true (λ _, Error e).

(** Accepts, then fails the first stats query; later queries would be
    answered. *)
Definition failing_stats_peer : Peer :=
  mkPeer true true
         (λ n, match n with
               | 0%nat => accepted_reply
               | 1%nat => Error (mkStanzaError "cancel" "remote-server-timeout")
               | _ => counting "3"
               end).

(** Accepts, then reports 3 conferences for ever. *)
Definition busy_peer : Peer :=
  mkPeer true true
         (λ n, match n with 0%nat => accepted_reply | _ => counting "3" end).

(** The requests and the sleeps of a trace, in order. *)
Fixpoint pace (t : list Event) : list (Iq + Z) :=
  match t with
  | [] => []
  | Send iq :: t' => inl iq :: pace t'
  | Sleep s :: t' => inr s :: pace t'
  | _ :: t' => pace t'
  end.

(** [n] rounds of a request followed by a 10-second sleep. *)
Fixpoint rounds (iq : Iq) (n : nat) : list (Iq + Z) :=
  match n with
  | O => []
  | S n' => inl iq :: inr 10 :: rounds iq n'
  end.

(** The shapes a whole run from the initial world can take, each with the
    conditions on the options and on the peer under which it is taken. *)
Inductive run_shape (peer : Peer) (opts : Options) (fuel : nat) :
    Outcome * World → Prop :=
| shape_missing msg :
    ¬ all_given opts →
    run_shape peer opts fuel (Exited 1, mkWorld 0 false [Stderr msg] 0)
| shape_unconnected :
    all_given opts → connect_ok peer = false →
    run_shape peer opts fuel
      (Exited 0,
       mkWorld 0 false
         [Connect (server_of opts) 5222; LogError "Unable to connect."] 0)
| shape_no_session :
    all_given opts → connect_ok peer = true → session_start peer = false →
    run_shape peer opts fuel
      (Exited 0,
       mkWorld 0 false [Connect (server_of opts) 5222; LogInfo "Done"] 0)
| shape_rejected e :
    all_given opts → session_live peer → reply peer 0 = Error e →
    run_shape peer opts fuel
      (Exited (if fatal e then 1 else 0),
       mkWorld (if fatal e then 1 else 0) false
         (Connect (server_of opts) 5222 :: Send (shutdown_iq (bot_of opts))
            :: (if fatal e
                then [AssignExitCode 1;
                      LogError "There was an error sending shutdown request."]
                else [])
            ++ [Disconnect true; LogInfo "Done"])
         1)
| shape_other_type resp :
    all_given opts → session_live peer →
    reply peer 0 = Response resp → type resp ≠ "result" →
    run_shape peer opts fuel
      (NoExit,
       mkWorld 0 false
         [Connect (server_of opts) 5222; Send (shutdown_iq (bot_of opts))] 1)
| shape_drained n :
    all_given opts → session_live peer → accepts peer →
    (n < fuel)%nat →
    (∀ i, (i < n)%nat → nonzero_poll peer (S i)) →
    poll_value peer (S n) = Some (Py.Str "0") →
    run_shape peer opts fuel
      (Exited 0,
       mkWorld 0 true
         ([Connect (server_of opts) 5222; Send (shutdown_iq (bot_of opts));
           LogInfo "Shutdown accepted"]
          ++ waiting_trace (bot_of opts) peer 1 n
          ++ [Send (create_request_stats_iq (bot_of opts));
              LogInfo "There are 0 conferences in progress";
              LogInfo "End of shutdown procedure"; Disconnect true;
              LogInfo "Done"])
         (S (S n)))
| shape_stats_error n e :
    all_given opts → session_live peer → accepts peer →
    (n < fuel)%nat →
    (∀ i, (i < n)%nat → nonzero_poll peer (S i)) →
    reply peer (S n) = Error e →
    run_shape peer opts fuel
      (Exited 0,
       mkWorld 0 true
         ([Connect (server_of opts) 5222; Send (shutdown_iq (bot_of opts));
           LogInfo "Shutdown accepted"]
          ++ waiting_trace (bot_of opts) peer 1 n
          ++ [Send (create_request_stats_iq (bot_of opts)); Disconnect true;
              LogInfo "Done"])
         (S (S n)))
| shape_waiting :
    all_given opts → session_live peer → accepts peer →
    (∀ i, (i < fuel)%nat → nonzero_poll peer (S i)) →
    run_shape peer opts fuel
      (NoExit,
       mkWorld 0 true
         ([Connect (server_of opts) 5222; Send (shutdown_iq (bot_of opts));
           LogInfo "Shutdown accepted"]
          ++ waiting_trace (bot_of opts) peer 1 fuel)
         (S fuel)).

(** ** Basic facts *)

(** Unfolds the monad and the primitive effects. *)
Ltac run_effects :=
  unfold try_except, mbind, M_bind, bind, mret, M_ret, ret, pending,
    disconnect, logging_info, logging_error, time_sleep, emit, set_exitCode,
    set_shutdown_accepted, get_shutdown_accepted, until_disconnected;
  simpl.

Lemma sends_app t1 t2 : sends (t1 ++ t2) = sends t1 ++ sends t2.
Proof. induction t1 as [|[] t1 IH]; simpl; by rewrite ?IH. Qed.

Lemma sleeps_app t1 t2 : sleeps (t1 ++ t2) = sleeps t1 ++ sleeps t2.
Proof. induction t1 as [|[] t1 IH]; simpl; by rewrite ?IH. Qed.

Lemma disconnects_app t1 t2 :
  disconnects (t1 ++ t2) = disconnects t1 ++ disconnects t2.
Proof. induction t1 as [|[] t1 IH]; simpl; by rewrite ?IH. Qed.

Lemma assignments_app t1 t2 :
  assignments (t1 ++ t2) = assignments t1 ++ assignments t2.
Proof. induction t1 as [|[] t1 IH]; simpl; by rewrite ?IH. Qed.

Lemma after_after w evs1 n1 evs2 n2 :
  after (after w evs1 n1) evs2 n2 = after w (evs1 ++ evs2) (n2 + n1).
Proof.
  unfold after; simpl. f_equal; [by rewrite app_assoc | lia].
Qed.

Lemma after_nil w : after w [] 0 = w.
Proof. destruct w; unfold after; simpl. by rewrite app_nil_r. Qed.

Section RunFacts.

Variable peer : Peer.
Variable self : FocusShutdownUserBot.

Lemma send_response iq w resp :
  reply peer (sent w) = Response resp →
  send peer iq w = (Returned resp, after w [Send iq] 1).
Proof. intros H. unfold send. by rewrite H. Qed.

Lemma send_error iq w e :
  reply peer (sent w) = Error e →
  send peer iq w = (Raised e, after w [Send iq] 1).
Proof. intros H. unfold send. by rewrite H. Qed.

(** One turn of the loop, when the query is answered. *)
Lemma poll_once_response w resp :
  reply peer (sent w) = Response resp →
  let v := get_conferences (plugin resp ColibriStats) in
  poll_once peer self w =
    if Py.eqb v (Py.Str "0")
    then (Returned Break,
          after w [Send (create_request_stats_iq self); LogInfo (count_line v)] 1)
    else (Returned Continue,
          after w [Send (create_request_stats_iq self); LogInfo (count_line v);
                   Sleep 10] 1).
Proof.
  intros H v. unfold poll_once, mbind, M_bind, bind.
  rewrite (send_response _ _ _ H). fold v.
  destruct (Py.eqb v (Py.Str "0")); simpl; unfold after; simpl;
    by rewrite <- ?app_assoc.
Qed.

(** One turn of the loop, when the query raises. *)
Lemma poll_once_error w e :
  reply peer (sent w) = Error e →
  poll_once peer self w =
    (Raised e, after w [Send (create_request_stats_iq self)] 1).
Proof.
  intros H. unfold poll_once, mbind, M_bind, bind.
  by rewrite (send_error _ _ _ H).
Qed.

Lemma quiet_step_refl w : quiet_step w w.
Proof.
  repeat split; try done. exists []. by rewrite app_nil_r.
Qed.

Lemma quiet_step_trans w1 w2 w3 :
  quiet_step w1 w2 → quiet_step w2 w3 → quiet_step w1 w3.
Proof.
  intros (E1 & A1 & S1 & evs1 & T1 & D1 & X1) (E2 & A2 & S2 & evs2 & T2 & D2 & X2).
  repeat split; try congruence; try lia.
  exists (evs1 ++ evs2). rewrite T2, T1, <- app_assoc.
  by rewrite disconnects_app, assignments_app, D1, D2, X1, X2.
Qed.

Lemma quiet_step_after w evs n :
  disconnects evs = [] → assignments evs = [] → quiet_step w (after w evs n).
Proof.
  intros D X. repeat split; simpl; try done; try lia. by exists evs.
Qed.

Lemma poll_once_quiet w : quiet_step w (poll_once peer self w).2.
Proof.
  destruct (reply peer (sent w)) as [resp|e] eqn:H.
  - rewrite (poll_once_response _ _ H). simpl.
    destruct (Py.eqb _ _); simpl; by apply quiet_step_after.
  - rewrite (poll_once_error _ _ H). simpl. by apply quiet_step_after.
Qed.

(** Unfolding the loop by one turn. *)
Lemma while_true_S fuel (body : M LoopCtl) w :
  while_true (S fuel) body w =
    match body w with
    | (Returned Break, w') => (Returned (), w')
    | (Returned Continue, w') => while_true fuel body w'
    | (Raised e, w') => (Raised e, w')
    | (Pending, w') => (Pending, w')
    end.
Proof.
  simpl. unfold mbind, M_bind, bind.
  destruct (body w) as [[[]| |] w']; reflexivity.
Qed.

Lemma while_true_quiet fuel w :
  quiet_step w (while_true fuel (poll_once peer self) w).2.
Proof.
  revert w. induction fuel as [|fuel IH]; intros w.
  - apply quiet_step_refl.
  - rewrite while_true_S. pose proof (poll_once_quiet w) as Q.
    destruct (poll_once peer self w) as [[[]| |] w']; simpl in *; try done.
    eapply quiet_step_trans; [exact Q | apply IH].
Qed.

(** [n] polls that all report something other than '0' use up [n] turns
    and leave the loop running. *)
Lemma while_true_waiting n : ∀ fuel w,
  (∀ i, (i < n)%nat → nonzero_poll peer (i + sent w)) →
  while_true (n + fuel) (poll_once peer self) w =
  while_true fuel (poll_once peer self)
             (after w (waiting_trace self peer (sent w) n) n).
Proof.
  induction n as [|n IH]; intros fuel w Hnz.
  - simpl. by rewrite after_nil.
  - destruct (Hnz 0%nat) as (v & Hv & Hne); [lia|].
    simpl in Hv. unfold poll_value in Hv.
    destruct (reply peer (sent w)) as [resp|e] eqn:Hr; [|done].
    injection Hv as Hv.
    change (S n + fuel)%nat with (S (n + fuel)). rewrite while_true_S.
    rewrite (poll_once_response _ _ Hr). rewrite Hv.
    unfold Py.eqb. rewrite bool_decide_eq_false_2 by done.
    rewrite IH.
    + rewrite after_after. simpl waiting_trace.
      unfold poll_value at 1. rewrite Hr, Hv. simpl.
      do 2 f_equal. lia.
    + intros i Hi. simpl. replace (i + S (sent w))%nat with (S i + sent w)%nat by lia.
      apply Hnz. lia.
Qed.

(** The handler when the shutdown request raises. *)
Lemma shutdown_focus_rejected fuel w e :
  reply peer (sent w) = Error e →
  shutdown_focus peer fuel self w =
    (Returned (),
     mkWorld (if fatal e then 1 else exitCode w) false
             (trace w ++ Send (shutdown_iq self)
                :: (if fatal e
                    then [AssignExitCode 1;
                          LogError "There was an error sending shutdown request."]
                    else [])
                ++ [Disconnect true])
             (S (sent w))).
Proof.
  intros H. unfold shutdown_focus. run_effects.
  unfold send. simpl. rewrite H. simpl. unfold fatal.
  destruct (bool_decide (etype e ≠ "wait") &&
            bool_decide (condition e ≠ "service-unavailable"));
    run_effects; by rewrite <- ?app_assoc.
Qed.

(** The handler when the answer is a stanza of another type than
    'result': it comes back having done nothing more. *)
Lemma shutdown_focus_other_type fuel w resp :
  reply peer (sent w) = Response resp → type resp ≠ "result" →
  shutdown_focus peer fuel self w =
    (Returned (),
     mkWorld (exitCode w) false (trace w ++ [Send (shutdown_iq self)])
             (S (sent w))).
Proof.
  intros H Ht. unfold shutdown_focus. run_effects.
  unfold send. simpl. rewrite H. by rewrite decide_False.
Qed.

(** The handler when the shutdown request is accepted: the loop runs, and
    whether it leaves by [break] or by an exception, the stream is
    disconnected. *)
Lemma shutdown_focus_accepted fuel w resp :
  reply peer (sent w) = Response resp → type resp = "result" →
  shutdown_focus peer fuel self w =
    match while_true fuel (poll_once peer self)
            (mkWorld (exitCode w) true
               (trace w ++ [Send (shutdown_iq self); LogInfo "Shutdown accepted"])
               (S (sent w))) with
    | (Returned _, w2) =>
        (Returned (),
         after w2 [LogInfo "End of shutdown procedure"; Disconnect true] 0)
    | (Raised e, w2) => (Returned (), after w2 [Disconnect true] 0)
    | (Pending, w2) => (Pending, w2)
    end.
Proof.
  intros H Ht. unfold shutdown_focus. run_effects.
  unfold send. simpl. rewrite H. rewrite decide_True by done. simpl.
  rewrite <- app_assoc. simpl.
  match goal with |- context [while_true fuel ?b ?w1] =>
    pose proof (while_true_quiet fuel w1) as (_ & Hacc & _);
    destruct (while_true fuel b w1) as [[[]|e|] w2] end; simpl in *.
  - unfold after. simpl. by rewrite <- app_assoc.
  - rewrite Hacc. simpl. reflexivity.
  - reflexivity.
Qed.

End RunFacts.

(** ** Whole runs *)

Section MainFacts.

Variable peer : Peer.
Variable opts : Options.
Hypothesis Hgiven : all_given opts.

Lemma existsb_disconnect_app evs1 evs2 :
  existsb is_disconnect evs2 = true →
  existsb is_disconnect (evs1 ++ evs2) = true.
Proof. intros H. rewrite existsb_app, H. apply orb_true_r. Qed.

(** With every option given, [__main__] connects and, on a live session,
    hands over to the handler. *)
Lemma main_live fuel w :
  session_live peer →
  main peer fuel opts w =
    match shutdown_focus peer fuel (bot_of opts)
            (after w [Connect (server_of opts) 5222] 0) with
    | (Returned _, w1) =>
        if existsb is_disconnect (trace w1)
        then (Exited (exitCode w1), after w1 [LogInfo "Done"] 0)
        else (NoExit, w1)
    | (Raised e, w1) => (Uncaught e, w1)
    | (Pending, w1) => (NoExit, w1)
    end.
Proof.
  intros [Hc Hs]. destruct Hgiven as ([s Es] & [j Ej] & [p Ep] & [f Ef]).
  unfold main, process, bot_of, server_of. rewrite Es, Ej, Ep, Ef, Hc, Hs.
  run_effects. unfold after. simpl.
  destruct (shutdown_focus _ _ _ _) as [[[]|e|] w1]; simpl; try done.
  destruct (existsb is_disconnect (trace w1)); done.
Qed.

(** With every option given and the connection refused, a log line is all
    that happens. *)
Lemma main_unconnected fuel w :
  connect_ok peer = false →
  main peer fuel opts w =
    (Exited (exitCode w),
     after w [Connect (server_of opts) 5222; LogError "Unable to connect."] 0).
Proof.
  intros Hc. destruct Hgiven as ([s Es] & [j Ej] & [p Ep] & [f Ef]).
  unfold main, server_of. rewrite Es, Ej, Ep, Ef, Hc.
  run_effects. unfold after. simpl. by rewrite <- app_assoc.
Qed.

(** With every option given and no session, the handler never runs. *)
Lemma main_no_session fuel w :
  connect_ok peer = true → session_start peer = false →
  main peer fuel opts w =
    (Exited (exitCode w),
     after w [Connect (server_of opts) 5222; LogInfo "Done"] 0).
Proof.
  intros Hc Hs. destruct Hgiven as ([s Es] & [j Ej] & [p Ep] & [f Ef]).
  unfold main, process, server_of. rewrite Es, Ej, Ep, Ef, Hc, Hs.
  run_effects. unfold after. simpl. by rewrite <- app_assoc.
Qed.

(** A run whose shutdown request is rejected. *)
Lemma main_rejected fuel e :
  session_live peer → reply peer 0 = Error e →
  main peer fuel opts initial =
    (Exited (if fatal e then 1 else 0),
     mkWorld (if fatal e then 1 else 0) false
       (Connect (server_of opts) 5222 :: Send (shutdown_iq (bot_of opts))
          :: (if fatal e
              then [AssignExitCode 1;
                    LogError "There was an error sending shutdown request."]
              else [])
          ++ [Disconnect true; LogInfo "Done"])
       1).
Proof.
  intros Hl He. rewrite (main_live _ _ Hl).
  rewrite (shutdown_focus_rejected _ _ _ _ e) by exact He.
  destruct (fatal e); reflexivity.
Qed.

(** A run whose shutdown request is accepted, in terms of its loop. *)
Lemma main_accepted fuel :
  session_live peer → accepts peer →
  main peer fuel opts initial =
    match while_true fuel (poll_once peer (bot_of opts))
            (mkWorld 0 true
               [Connect (server_of opts) 5222; Send (shutdown_iq (bot_of opts));
                LogInfo "Shutdown accepted"] 1) with
    | (Returned _, w2) =>
        (Exited 0,
         after w2 [LogInfo "End of shutdown procedure"; Disconnect true;
                   LogInfo "Done"] 0)
    | (Raised e, w2) => (Exited 0, after w2 [Disconnect true; LogInfo "Done"] 0)
    | (Pending, w2) => (NoExit, w2)
    end.
Proof.
  intros Hl (resp & Hr & Ht). rewrite (main_live _ _ Hl).
  rewrite (shutdown_focus_accepted _ _ _ _ resp) by done. simpl.
  match goal with |- context [while_true fuel ?b ?w1] =>
    pose proof (while_true_quiet peer (bot_of opts) fuel w1) as (Hx & _);
    destruct (while_true fuel b w1) as [[[]|e|] w2] end; simpl in *.
  - rewrite existsb_disconnect_app by done. rewrite Hx.
    by rewrite after_after.
  - rewrite existsb_disconnect_app by done. rewrite Hx.
    by rewrite after_after.
  - reflexivity.
Qed.

End MainFacts.

(** ** The counter extraction *)

(** The loop of [get_conferences] either finds no stat named 'conferences'
    and gives -1, or gives the value attribute of one that is. *)
Lemma get_conferences_loop_spec (l : list Xml.Element) :
  (get_conferences_loop l = Py.Int (-1) ∧
   ∀ s, s ∈ l → Xml.get s "name" ≠ Some "conferences") ∨
  (∃ s, s ∈ l ∧ Xml.get s "name" = Some "conferences" ∧
        get_conferences_loop l = Py.of_attr (Xml.get s "value")).
Proof.
  induction l as [|c l IH]; simpl.
  - left. split; [done|]. intros s Hs. by apply elem_of_nil in Hs.
  - destruct (decide (Xml.get c "name" = Some "conferences")) as [Hc|Hc].
    + right. exists c. split; [apply list_elem_of_here | done].
    + destruct IH as [[E Hno]|(s & Hs & Hn & E)].
      * left. split; [done|]. intros s Hs.
        apply elem_of_cons in Hs as [->|Hs]; [done | by apply Hno].
      * right. exists s. split; [by apply list_elem_of_further | done].
Qed.


Lemma of_attr_not_sentinel (o : option string) : Py.of_attr o ≠ Py.Int (-1).
Proof. by destruct o. Qed.

(** C5, as stated, fails: two responses with the same stat elements in
    another order, one named 'conferences' twice with different values,
    give different counts. *)
Lemma extraction_depends_on_order :
  let x := mk_stats [mk_stat "conferences" "0"; mk_stat "conferences" "5"] in
  let y := mk_stats [mk_stat "conferences" "5"; mk_stat "conferences" "0"] in
  Xml.children x ≡ₚ Xml.children y ∧
  get_conferences x = Py.Str "0" ∧
  get_conferences y = Py.Str "5" ∧
  get_conferences x ≠ get_conferences y.
Proof.
  repeat split.
  - apply Permutation_swap.
  - discriminate.
Qed.

(** C5, amended: when the stat elements named 'conferences' of a response
    all carry the same value attribute (as when there is at most one), the
    extracted count is the same for every reordering of the elements; and
    when no stat is named 'conferences' the extraction gives -1. *)
Theorem extraction_order_independent :
  (∀ x y : Xml.Element,
     Xml.children x ≡ₚ Xml.children y →
     (∀ s1 s2,
        s1 ∈ Xml.findall x "{http://jitsi.org/protocol/colibri}stat" →
        s2 ∈ Xml.findall x "{http://jitsi.org/protocol/colibri}stat" →
        Xml.get s1 "name" = Some "conferences" →
        Xml.get s2 "name" = Some "conferences" →
        Xml.get s1 "value" = Xml.get s2 "value") →
     get_conferences x = get_conferences y) ∧
  (∀ x : Xml.Element,
     (∀ s, s ∈ Xml.findall x "{http://jitsi.org/protocol/colibri}stat" →
           Xml.get s "name" ≠ Some "conferences") →
     get_conferences x = Py.Int (-1)).
Proof.
  split.
  - intros x y Hperm Hagree. unfold get_conferences, Xml.findall in *.
    set (P := λ c : Xml.Element,
                Xml.tag c = "{http://jitsi.org/protocol/colibri}stat") in *.
    assert (Hf : filter P (Xml.children x) ≡ₚ filter P (Xml.children y))
      by (by rewrite Hperm).
    destruct (get_conferences_loop_spec (filter P (Xml.children x)))
      as [[Ex Hx]|(sx & Hsx & Hnx & Ex)];
    destruct (get_conferences_loop_spec (filter P (Xml.children y)))
      as [[Ey Hy]|(sy & Hsy & Hny & Ey)].
    + congruence.
    + rewrite <- Hf in Hsy. by destruct (Hx sy Hsy).
    + rewrite Hf in Hsx. by destruct (Hy sx Hsx).
    + rewrite Ex, Ey. f_equal. apply Hagree; try done. by rewrite Hf.
  - intros x Hno. unfold get_conferences.
    destruct (get_conferences_loop_spec
                (Xml.findall x "{http://jitsi.org/protocol/colibri}stat"))
      as [[E _]|(s & Hs & Hn & _)]; [done|]. by destruct (Hno s Hs).
Qed.

Lemma extraction_order_independent_witness :
  get_conferences (mk_stats [mk_stat "threads" "12"; mk_stat "conferences" "4"])
  = get_conferences (mk_stats [mk_stat "conferences" "4"; mk_stat "threads" "12"])
  ∧ get_conferences (mk_stats [mk_stat "threads" "12"]) = Py.Int (-1).
Proof.
  split.
  - apply (proj1 extraction_order_independent).
    + apply Permutation_swap.
    + intros s1 s2 H1 H2 N1 N2. vm_compute in H1, H2.
      apply elem_of_cons in H1 as [->|H1];
        [|apply elem_of_cons in H1 as [->|H1]; [|by apply elem_of_nil in H1]];
      (apply elem_of_cons in H2 as [->|H2];
        [|apply elem_of_cons in H2 as [->|H2]; [|by apply elem_of_nil in H2]]);
      try reflexivity; vm_compute in N1, N2; discriminate.
  - apply (proj2 extraction_order_independent).
    intros s H. vm_compute in H.
    apply elem_of_cons in H as [->|H]; [|by apply elem_of_nil in H].
    vm_compute. discriminate.
Defined.



(** ** The polling loop *)

(** Every turn of the loop begins by sending the stats query. *)
Lemma while_true_polls_first peer self fuel w :
  ∃ evs, trace (while_true (S fuel) (poll_once peer self) w).2 =
         trace w ++ Send (create_request_stats_iq self) :: evs.
Proof.
  rewrite while_true_S.
  destruct (reply peer (sent w)) as [resp|e] eqn:Hr.
  - rewrite (poll_once_response _ _ _ _ Hr).
    destruct (Py.eqb _ _); simpl.
    + eexists. reflexivity.
    + match goal with |- context [while_true fuel ?b ?w1] =>
        destruct (while_true_quiet peer self fuel w1)
          as (_ & _ & _ & evs & -> & _) end.
      simpl. rewrite <- app_assoc. simpl. eexists. reflexivity.
  - rewrite (poll_once_error _ _ _ _ Hr). simpl. eexists. reflexivity.
Qed.

(** A turn whose query is answered breaks exactly when the extracted count
    equals the string '0'; for any other extracted value, the sentinel -1
    of an absent counter included, the loop sleeps 10 seconds and sends the
    next query. *)
Lemma answered_turn peer self w resp :
  reply peer (sent w) = Response resp →
  let conf_count := get_conferences (plugin resp ColibriStats) in
  let polled := [Send (create_request_stats_iq self);
                 LogInfo (count_line conf_count)] in
  ((poll_once peer self w).1 = Returned Break ↔ conf_count = Py.Str "0") ∧
  (conf_count = Py.Str "0" →
   ∀ fuel, while_true (S fuel) (poll_once peer self) w =
           (Returned (), after w polled 1)) ∧
  (conf_count ≠ Py.Str "0" →
   poll_once peer self w =
     (Returned Continue, after w (polled ++ [Sleep 10]) 1) ∧
   ∀ fuel,
     while_true (S fuel) (poll_once peer self) w =
       while_true fuel (poll_once peer self)
                  (after w (polled ++ [Sleep 10]) 1) ∧
     ∃ evs, trace (while_true (S (S fuel)) (poll_once peer self) w).2 =
            trace w ++ polled
              ++ [Sleep 10; Send (create_request_stats_iq self)] ++ evs) ∧
  (conf_count = Py.Int (-1) → (poll_once peer self w).1 = Returned Continue).
Proof.
  intros Hr conf_count polled.
  pose proof (poll_once_response peer self w resp Hr) as Hp.
  simpl in Hp. fold conf_count in Hp. unfold Py.eqb in Hp.
  split; [|split; [|split]].
  - rewrite Hp. case_bool_decide; simpl; split; congruence.
  - intros Hz fuel. rewrite while_true_S, Hp.
    by rewrite bool_decide_eq_true_2.
  - intros Hnz. rewrite bool_decide_eq_false_2 in Hp by done.
    split; [exact Hp|]. intros fuel.
    assert (Hstep : ∀ f, while_true (S f) (poll_once peer self) w =
              while_true f (poll_once peer self)
                         (after w (polled ++ [Sleep 10]) 1))
      by (intros f; by rewrite while_true_S, Hp).
    split; [apply Hstep|].
    rewrite (Hstep (S fuel)).
    destruct (while_true_polls_first peer self fuel
                (after w (polled ++ [Sleep 10]) 1)) as [evs Hevs].
    exists evs. rewrite Hevs. simpl. by rewrite <- app_assoc.
  - intros Hs. rewrite Hp, Hs. reflexivity.
Qed.

(** Waiting for the count to reach zero sends and sleeps, and nothing
    else. *)
Lemma waiting_trace_sends self peer start n :
  sends (waiting_trace self peer start n)
  = replicate n (create_request_stats_iq self).
Proof.
  revert start. induction n as [|n IH]; intros start; simpl; [done|].
  f_equal. apply IH.
Qed.

Lemma waiting_trace_sleeps self peer start n :
  sleeps (waiting_trace self peer start n) = replicate n 10.
Proof.
  revert start. induction n as [|n IH]; intros start; simpl; [done|].
  f_equal. apply IH.
Qed.

Lemma waiting_trace_disconnects self peer start n :
  disconnects (waiting_trace self peer start n) = [].
Proof.
  revert start. induction n as [|n IH]; intros start; simpl; [done|]. apply IH.
Qed.

Lemma waiting_trace_assignments self peer start n :
  assignments (waiting_trace self peer start n) = [].
Proof.
  revert start. induction n as [|n IH]; intros start; simpl; [done|]. apply IH.
Qed.

Section Accepted.

Variable peer : Peer.
Variable opts : Options.
Hypothesis Hgiven : all_given opts.
Hypothesis Hlive : session_live peer.
Hypothesis Haccepts : accepts peer.

(** Accepted, [n] polls that do not report '0', then one that does: the
    run ends after [n + 1] polls. *)
Lemma main_drained n fuel :
  (∀ i, (i < n)%nat → nonzero_poll peer (S i)) →
  poll_value peer (S n) = Some (Py.Str "0") →
  (n < fuel)%nat →
  main peer fuel opts initial =
    (Exited 0,
     mkWorld 0 true
       ([Connect (server_of opts) 5222; Send (shutdown_iq (bot_of opts));
         LogInfo "Shutdown accepted"]
        ++ waiting_trace (bot_of opts) peer 1 n
        ++ [Send (create_request_stats_iq (bot_of opts));
            LogInfo "There are 0 conferences in progress";
            LogInfo "End of shutdown procedure"; Disconnect true;
            LogInfo "Done"])
       (S (S n))).
Proof.
  intros Hnz Hzero Hfuel.
  rewrite (main_accepted _ _ Hgiven _ Hlive Haccepts).
  replace fuel with (n + S (fuel - S n))%nat by lia.
  rewrite while_true_waiting
    by (intros i Hi; simpl; rewrite Nat.add_1_r; by apply Hnz).
  rewrite while_true_S. unfold poll_value in Hzero.
  destruct (reply peer (S n)) as [resp|] eqn:Hr; [|done].
  injection Hzero as Hzero.
  rewrite (poll_once_response _ _ _ resp)
    by (simpl; by rewrite Nat.add_1_r).
  rewrite Hzero. simpl. unfold after. simpl.
  rewrite <- !app_assoc. simpl. do 2 f_equal. lia.
Qed.

(** Accepted, [n] polls that do not report '0', then a stats query that
    raises: the run ends there. *)
Lemma main_stats_error n e fuel :
  (∀ i, (i < n)%nat → nonzero_poll peer (S i)) →
  reply peer (S n) = Error e →
  (n < fuel)%nat →
  main peer fuel opts initial =
    (Exited 0,
     mkWorld 0 true
       ([Connect (server_of opts) 5222; Send (shutdown_iq (bot_of opts));
         LogInfo "Shutdown accepted"]
        ++ waiting_trace (bot_of opts) peer 1 n
        ++ [Send (create_request_stats_iq (bot_of opts)); Disconnect true;
            LogInfo "Done"])
       (S (S n))).
Proof.
  intros Hnz Herr Hfuel.
  rewrite (main_accepted _ _ Hgiven _ Hlive Haccepts).
  replace fuel with (n + S (fuel - S n))%nat by lia.
  rewrite while_true_waiting
    by (intros i Hi; simpl; rewrite Nat.add_1_r; by apply Hnz).
  rewrite while_true_S.
  rewrite (poll_once_error _ _ _ e)
    by (simpl; by rewrite Nat.add_1_r).
  simpl. unfold after. simpl.
  rewrite <- !app_assoc. simpl. do 2 f_equal. lia.
Qed.

(** Accepted: whatever the loop does, the exit code stays 0 and nothing is
    assigned to it. *)
Lemma main_accepted_quiet fuel :
  let r := main peer fuel opts initial in
  (r.1 = Exited 0 ∨ r.1 = NoExit) ∧
  exitCode r.2 = 0 ∧ assignments (trace r.2) = [] ∧
  (length (disconnects (trace r.2)) ≤ 1)%nat ∧
  (r.1 = Exited 0 → disconnects (trace r.2) = [true]).
Proof.
  intros r. unfold r. rewrite (main_accepted _ _ Hgiven _ Hlive Haccepts).
  match goal with |- context [while_true fuel ?b ?w1] =>
    pose proof (while_true_quiet peer (bot_of opts) fuel w1)
      as (Hx & _ & _ & evs & Ht & Hd & Ha);
    destruct (while_true fuel b w1) as [[[]|e|] w2] end;
    simpl in *; rewrite ?Ht; simpl;
    rewrite ?assignments_app, ?disconnects_app, ?Ha, ?Hd; simpl;
    repeat split; auto; try lia.
  discriminate.
Qed.

End Accepted.

Lemma fatal_true e :
  fatal e = true ↔ etype e ≠ "wait" ∧ condition e ≠ "service-unavailable".
Proof.
  unfold fatal. rewrite andb_true_iff, !bool_decide_eq_true. done.
Qed.

Lemma fatal_false e :
  fatal e = false ↔ etype e = "wait" ∨ condition e = "service-unavailable".
Proof.
  unfold fatal. rewrite andb_false_iff, !bool_decide_eq_false.
  split; (intros [H|H]; [left|right]).
  - by apply dec_stable.
  - by apply dec_stable.
  - by intros ?.
  - by intros ?.
Qed.

(** A missing option ends the run before anything else happens. *)
Lemma main_missing_option peer fuel opts w :
  ¬ all_given opts →
  ∃ msg, main peer fuel opts w = (Exited 1, after w [Stderr msg] 0).
Proof.
  intros Hno. unfold main.
  destruct (opt_server opts) eqn:Es; [|eexists; reflexivity].
  destruct (opt_jid opts) eqn:Ej; [|eexists; reflexivity].
  destruct (opt_password opts) eqn:Ep; [|eexists; reflexivity].
  destruct (opt_focus opts) eqn:Ef; [|eexists; reflexivity].
  destruct Hno. unfold all_given. rewrite Es, Ej, Ep, Ef. eauto.
Qed.

(** A run whose shutdown request is answered by a stanza of another type
    than 'result': the handler comes back without disconnecting and the
    event loop goes on. *)
Lemma main_other_type peer opts fuel resp :
  all_given opts → session_live peer →
  reply peer 0 = Response resp → type resp ≠ "result" →
  main peer fuel opts initial =
    (NoExit,
     mkWorld 0 false
       [Connect (server_of opts) 5222; Send (shutdown_iq (bot_of opts))] 1).
Proof.
  intros Hg Hl Hr Ht. rewrite (main_live _ _ Hg _ _ Hl).
  by rewrite (shutdown_focus_other_type _ _ _ _ resp).
Qed.

(** ** The exit status *)

(** C2: [exitCode] starts at 0 and is only ever 0 or 1; over a whole run it
    is assigned at most once, and then to 1, so it goes from success to
    failure at most once and never back; and it ends at 1 exactly when the
    shutdown request raised an error whose type is not 'wait' and whose
    condition is not 'service-unavailable'. *)
Theorem exit_status_invariant peer fuel opts :
  exitCode initial = 0 ∧
  let w' := (main peer fuel opts initial).2 in
  (exitCode w' = 0 ∨ exitCode w' = 1) ∧
  (assignments (trace w') = [] ∧ exitCode w' = 0 ∨
   assignments (trace w') = [1] ∧ exitCode w' = 1) ∧
  (exitCode w' = 1 ↔
   all_given opts ∧ session_live peer ∧
   ∃ e, reply peer 0 = Error e ∧
        etype e ≠ "wait" ∧ condition e ≠ "service-unavailable").
Proof.
  split; [reflexivity|]. intros w'. unfold w'. clear w'.
  assert (Hzero : ∀ r,
    main peer fuel opts initial = r →
    exitCode r.2 = 0 → assignments (trace r.2) = [] →
    ¬ (all_given opts ∧ session_live peer ∧
       ∃ e, reply peer 0 = Error e ∧
            etype e ≠ "wait" ∧ condition e ≠ "service-unavailable") →
    (exitCode r.2 = 0 ∨ exitCode r.2 = 1) ∧
    (assignments (trace r.2) = [] ∧ exitCode r.2 = 0 ∨
     assignments (trace r.2) = [1] ∧ exitCode r.2 = 1) ∧
    (exitCode r.2 = 1 ↔
     all_given opts ∧ session_live peer ∧
     ∃ e, reply peer 0 = Error e ∧
          etype e ≠ "wait" ∧ condition e ≠ "service-unavailable")).
  { intros r _ Hx Ha Hn. rewrite Hx, Ha.
    split; [by left|]. split; [by left|]. split; [done|].
    intros H. by destruct Hn. }
  destruct (decide (all_given opts)) as [Hg|Hg].
  2:{ destruct (main_missing_option peer fuel opts initial Hg) as [msg E].
      rewrite E. apply (Hzero _ E); try done. by intros [? _]. }
  destruct (connect_ok peer) eqn:Hc.
  2:{ pose proof (main_unconnected peer opts Hg fuel initial Hc) as E.
      rewrite E. apply (Hzero _ E); try done.
      intros (_ & [Hc' _] & _). congruence. }
  destruct (session_start peer) eqn:Hs.
  2:{ pose proof (main_no_session peer opts Hg fuel initial Hc Hs) as E.
      rewrite E. apply (Hzero _ E); try done.
      intros (_ & [_ Hs'] & _). congruence. }
  assert (Hl : session_live peer) by done.
  destruct (reply peer 0) as [resp|e] eqn:Hr.
  - assert (Hn : ¬ (all_given opts ∧ session_live peer ∧
       ∃ e, Response resp = Error e ∧
            etype e ≠ "wait" ∧ condition e ≠ "service-unavailable"))
      by (intros (_ & _ & e & He & _); discriminate).
    destruct (decide (type resp = "result")) as [Ht|Ht].
    + assert (Hacc : accepts peer) by (by exists resp).
      destruct (main_accepted_quiet peer opts Hg Hl Hacc fuel)
        as (_ & Hx & Ha & _).
      by apply (Hzero _ eq_refl).
    + pose proof (main_other_type peer opts fuel resp Hg Hl Hr Ht) as E.
      rewrite E. by apply (Hzero _ E).
  - rewrite (main_rejected peer opts Hg fuel e Hl Hr).
    destruct (fatal e) eqn:Hf; simpl.
    + apply fatal_true in Hf.
      split; [by right|]. split; [by right|].
      split; [|done]. intros _. split; [done|]. split; [done|]. by exists e.
    + apply fatal_false in Hf.
      split; [by left|]. split; [by left|].
      split; [done|].
      intros (_ & _ & e' & He' & Hw & Hsu). injection He' as <-.
      destruct Hf; done.
Qed.

Lemma exit_status_invariant_witness :
  exitCode (main (rejecting_peer (mkStanzaError "auth" "not-authorized"))
                 0 example_opts initial).2 = 1 ∧
  assignments
    (trace (main (rejecting_peer (mkStanzaError "auth" "not-authorized"))
                 0 example_opts initial).2) = [1].
Proof.
  destruct (exit_status_invariant
              (rejecting_peer (mkStanzaError "auth" "not-authorized"))
              0 example_opts) as (_ & _ & [[_ H]|[Ha Hx]] & _).
  - vm_compute in H. discriminate.
  - split; [exact Hx | exact Ha].
Defined.

(** C6: a shutdown request rejected with error type 'wait' or condition
    'service-unavailable' is followed by no poll, the stream is
    disconnected and the process exits with code 0; rejected with any other
    error it is followed by no poll, the stream is disconnected and the
    process exits with code 1. *)
Theorem rejected_shutdown peer opts fuel e :
  all_given opts → session_live peer → reply peer 0 = Error e →
  (etype e = "wait" ∨ condition e = "service-unavailable" →
   main peer fuel opts initial =
     (Exited 0,
      mkWorld 0 false
        [Connect (server_of opts) 5222; Send (shutdown_iq (bot_of opts));
         Disconnect true; LogInfo "Done"] 1)) ∧
  (etype e ≠ "wait" ∧ condition e ≠ "service-unavailable" →
   main peer fuel opts initial =
     (Exited 1,
      mkWorld 1 false
        [Connect (server_of opts) 5222; Send (shutdown_iq (bot_of opts));
         AssignExitCode 1;
         LogError "There was an error sending shutdown request.";
         Disconnect true; LogInfo "Done"] 1)).
Proof.
  intros Hg Hl Hr. rewrite (main_rejected peer opts Hg fuel e Hl Hr).
  split; intros Hf.
  - apply fatal_false in Hf. by rewrite Hf.
  - apply fatal_true in Hf. by rewrite Hf.
Qed.

Lemma rejected_shutdown_witness :
  main (rejecting_peer (mkStanzaError "wait" "resource-constraint"))
       0 example_opts initial =
    (Exited 0,
     mkWorld 0 false
       [Connect "xmpp.example.org" 5222; Send (shutdown_iq example_bot);
        Disconnect true; LogInfo "Done"] 1) ∧
  main (rejecting_peer (mkStanzaError "auth" "not-authorized"))
       0 example_opts initial =
    (Exited 1,
     mkWorld 1 false
       [Connect "xmpp.example.org" 5222; Send (shutdown_iq example_bot);
        AssignExitCode 1;
        LogError "There was an error sending shutdown request.";
        Disconnect true; LogInfo "Done"] 1).
Proof.
  assert (Hg : all_given example_opts) by (repeat split; by eexists).
  split.
  - apply (proj1 (rejected_shutdown
                    (rejecting_peer (mkStanzaError "wait" "resource-constraint"))
                    example_opts 0 (mkStanzaError "wait" "resource-constraint")
                    Hg (conj eq_refl eq_refl) eq_refl)).
    left. reflexivity.
  - apply (proj2 (rejected_shutdown
                    (rejecting_peer (mkStanzaError "auth" "not-authorized"))
                    example_opts 0 (mkStanzaError "auth" "not-authorized")
                    Hg (conj eq_refl eq_refl) eq_refl)).
    split; discriminate.
Defined.

(** C7: when every option is given and the connection fails, the failure
    is logged, nothing else happens and the process exits with code 0; and
    such a run can only exit with a nonzero code after connecting, when the
    shutdown request raised an error whose type is not 'wait' and whose
    condition is not 'service-unavailable'. *)
Theorem connect_failure_exits_zero peer opts fuel :
  all_given opts →
  (connect_ok peer = false →
   main peer fuel opts initial =
     (Exited 0,
      mkWorld 0 false
        [Connect (server_of opts) 5222; LogError "Unable to connect."] 0)) ∧
  (∀ code,
     (main peer fuel opts initial).1 = Exited code → code ≠ 0 →
     code = 1 ∧ connect_ok peer = true ∧ session_start peer = true ∧
     ∃ e, reply peer 0 = Error e ∧
          etype e ≠ "wait" ∧ condition e ≠ "service-unavailable").
Proof.
  intros Hg. split.
  - intros Hc. by rewrite (main_unconnected peer opts Hg fuel initial Hc).
  - intros code Hexit Hcode.
    destruct (connect_ok peer) eqn:Hc.
    2:{ rewrite (main_unconnected peer opts Hg fuel initial Hc) in Hexit.
        simpl in Hexit. congruence. }
    destruct (session_start peer) eqn:Hs.
    2:{ rewrite (main_no_session peer opts Hg fuel initial Hc Hs) in Hexit.
        simpl in Hexit. congruence. }
    assert (Hl : session_live peer) by done.
    destruct (reply peer 0) as [resp|e] eqn:Hr.
    + destruct (decide (type resp = "result")) as [Ht|Ht].
      * assert (Hacc : accepts peer) by (by exists resp).
        destruct (main_accepted_quiet peer opts Hg Hl Hacc fuel)
          as ([H|H] & _); rewrite H in Hexit; congruence.
      * rewrite (main_other_type peer opts fuel resp Hg Hl Hr Ht) in Hexit.
        discriminate.
    + rewrite (main_rejected peer opts Hg fuel e Hl Hr) in Hexit.
      destruct (fatal e) eqn:Hf; simpl in Hexit; [|congruence].
      apply fatal_true in Hf. split; [congruence|].
      split; [done|]. split; [done|]. by exists e.
Qed.

Lemma connect_failure_exits_zero_witness :
  main (mkPeer false true (λ _, Error (mkStanzaError "auth" "not-authorized")))
       0 example_opts initial =
    (Exited 0,
     mkWorld 0 false
       [Connect "xmpp.example.org" 5222; LogError "Unable to connect."] 0).
Proof.
  assert (Hg : all_given example_opts) by (repeat split; by eexists).
  apply (proj1 (connect_failure_exits_zero
                  (mkPeer false true
                     (λ _, Error (mkStanzaError "auth" "not-authorized")))
                  example_opts 0 Hg)).
  reflexivity.
Defined.

(** ** Scenarios *)

(** C8: when the shutdown request is accepted and the polls report "5",
    "2" and "0", exactly three stats queries are sent, with a 10-second
    sleep after the first and after the second, and the process exits with
    code 0; when the first poll reports "0", exactly one stats query is
    sent, with no sleep, and the process exits with code 0. *)
Theorem scenario_polls peer opts fuel :
  all_given opts → session_live peer → accepts peer →
  (poll_value peer 1 = Some (Py.Str "5") →
   poll_value peer 2 = Some (Py.Str "2") →
   poll_value peer 3 = Some (Py.Str "0") →
   (3 ≤ fuel)%nat →
   main peer fuel opts initial =
     (Exited 0,
      mkWorld 0 true
        [Connect (server_of opts) 5222; Send (shutdown_iq (bot_of opts));
         LogInfo "Shutdown accepted";
         Send (create_request_stats_iq (bot_of opts));
         LogInfo "There are 5 conferences in progress"; Sleep 10;
         Send (create_request_stats_iq (bot_of opts));
         LogInfo "There are 2 conferences in progress"; Sleep 10;
         Send (create_request_stats_iq (bot_of opts));
         LogInfo "There are 0 conferences in progress";
         LogInfo "End of shutdown procedure"; Disconnect true;
         LogInfo "Done"] 4)) ∧
  (poll_value peer 1 = Some (Py.Str "0") →
   (1 ≤ fuel)%nat →
   main peer fuel opts initial =
     (Exited 0,
      mkWorld 0 true
        [Connect (server_of opts) 5222; Send (shutdown_iq (bot_of opts));
         LogInfo "Shutdown accepted";
         Send (create_request_stats_iq (bot_of opts));
         LogInfo "There are 0 conferences in progress";
         LogInfo "End of shutdown procedure"; Disconnect true;
         LogInfo "Done"] 2)).
Proof.
  intros Hg Hl Hacc. split.
  - intros H5 H2 H0 Hfuel.
    rewrite (main_drained peer opts Hg Hl Hacc 2 fuel); try done.
    + simpl. by rewrite H5, H2.
    + intros i Hi. destruct i as [|[|i]]; [by eexists | by eexists | lia].
  - intros H0 Hfuel.
    rewrite (main_drained peer opts Hg Hl Hacc 0 fuel); try done.
    intros i Hi. lia.
Qed.

Lemma scenario_polls_witness :
  sends (trace (main draining_peer 3 example_opts initial).2)
    = [shutdown_iq example_bot; create_request_stats_iq example_bot;
       create_request_stats_iq example_bot;
       create_request_stats_iq example_bot] ∧
  sleeps (trace (main draining_peer 3 example_opts initial).2) = [10; 10] ∧
  (main draining_peer 3 example_opts initial).1 = Exited 0 ∧
  sends (trace (main idle_peer 1 example_opts initial).2)
    = [shutdown_iq example_bot; create_request_stats_iq example_bot] ∧
  sleeps (trace (main idle_peer 1 example_opts initial).2) = [] ∧
  (main idle_peer 1 example_opts initial).1 = Exited 0.
Proof.
  assert (Hg : all_given example_opts) by (repeat split; by eexists).
  assert (Hacc : ∀ f, accepts (mkPeer true true
                         (λ n, match n with 0%nat => accepted_reply | S m => f m end)))
    by (intros f; by eexists).
  rewrite (proj1 (scenario_polls draining_peer example_opts 3
                    Hg (conj eq_refl eq_refl) (Hacc _))
             eq_refl eq_refl eq_refl (le_n 3)).
  rewrite (proj2 (scenario_polls idle_peer example_opts 1
                    Hg (conj eq_refl eq_refl) (Hacc _))
             eq_refl (le_n 1)).
  repeat split.
Defined.

(** ** Errors after the shutdown was accepted *)

(** C9: once the shutdown request has been answered with a result, the
    exit code never becomes 1: nothing is assigned to [exitCode] and no run
    exits with another code than 0; in particular, when a stats query
    raises after polls that never reported '0', the stream is disconnected
    and the process exits with code 0. *)
Theorem accepted_never_fails peer opts :
  all_given opts → session_live peer → accepts peer →
  (∀ fuel,
     exitCode (main peer fuel opts initial).2 = 0 ∧
     assignments (trace (main peer fuel opts initial).2) = [] ∧
     ((main peer fuel opts initial).1 = Exited 0 ∨
      (main peer fuel opts initial).1 = NoExit)) ∧
  (∀ n e fuel,
     (∀ i, (i < n)%nat → nonzero_poll peer (S i)) →
     reply peer (S n) = Error e →
     (n < fuel)%nat →
     main peer fuel opts initial =
       (Exited 0,
        mkWorld 0 true
          ([Connect (server_of opts) 5222; Send (shutdown_iq (bot_of opts));
            LogInfo "Shutdown accepted"]
           ++ waiting_trace (bot_of opts) peer 1 n
           ++ [Send (create_request_stats_iq (bot_of opts)); Disconnect true;
               LogInfo "Done"])
          (S (S n)))).
Proof.
  intros Hg Hl Hacc. split.
  - intros fuel.
    destruct (main_accepted_quiet peer opts Hg Hl Hacc fuel)
      as (Hr & Hx & Ha & _).
    done.
  - intros n e fuel Hnz He Hfuel.
    by apply (main_stats_error peer opts Hg Hl Hacc n e fuel).
Qed.

Lemma accepted_never_fails_witness :
  main failing_stats_peer 7 example_opts initial =
    (Exited 0,
     mkWorld 0 true
       [Connect "xmpp.example.org" 5222; Send (shutdown_iq example_bot);
        LogInfo "Shutdown accepted";
        Send (create_request_stats_iq example_bot); Disconnect true;
        LogInfo "Done"] 2).
Proof.
  assert (Hg : all_given example_opts) by (repeat split; by eexists).
  assert (Hacc : accepts failing_stats_peer) by (by eexists).
  apply (proj2 (accepted_never_fails failing_stats_peer example_opts
                  Hg (conj eq_refl eq_refl) Hacc)
           0%nat (mkStanzaError "cancel" "remote-server-timeout") 7%nat).
  - intros i Hi. lia.
  - reflexivity.
  - lia.
Defined.

(** C3, as stated, fails: the shutdown request is accepted and the first
    stats query raises; the peer would answer later queries, yet however
    long the run is left to go on, no request follows the failed one (two
    requests in all: the shutdown request and the one stats query). *)
Lemma stats_error_is_not_retried :
  accepts failing_stats_peer ∧
  reply failing_stats_peer 1
    = Error (mkStanzaError "cancel" "remote-server-timeout") ∧
  reply failing_stats_peer 2 = counting "3" ∧
  ¬ ∃ fuel,
      (2 < length (sends (trace (main failing_stats_peer fuel
                                      example_opts initial).2)))%nat.
Proof.
  assert (Hacc : accepts failing_stats_peer) by (by eexists).
  split; [exact Hacc|]. split; [reflexivity|]. split; [reflexivity|].
  intros [fuel H].
  assert (Hg : all_given example_opts) by (repeat split; by eexists).
  destruct fuel as [|fuel].
  - vm_compute in H. lia.
  - rewrite (main_stats_error failing_stats_peer example_opts Hg
               (conj eq_refl eq_refl) Hacc 0
               (mkStanzaError "cancel" "remote-server-timeout") (S fuel))
      in H; [simpl in H; lia | intros i Hi; lia | reflexivity | lia].
Qed.

(** C3, amended: a StanzaError raised by a stats query during the polling
    loop is not fatal and is never escalated (the handler returns, the exit
    code stays 0, no error is logged), but it ends the polling: no further
    stats query and no sleep follow the failed query, and the stream is
    disconnected once. *)
Theorem stats_error_ends_polling peer self n e fuel :
  accepts peer →
  (∀ i, (i < n)%nat → nonzero_poll peer (S i)) →
  reply peer (S n) = Error e →
  (n < fuel)%nat →
  shutdown_focus peer fuel self initial =
    (Returned (),
     mkWorld 0 true
       ([Send (shutdown_iq self); LogInfo "Shutdown accepted"]
        ++ waiting_trace self peer 1 n
        ++ [Send (create_request_stats_iq self); Disconnect true])
       (S (S n))).
Proof.
  intros (resp & Hr & Ht) Hnz Herr Hfuel.
  rewrite (shutdown_focus_accepted _ _ _ _ resp) by done.
  replace fuel with (n + S (fuel - S n))%nat by lia.
  rewrite while_true_waiting
    by (intros i Hi; simpl; rewrite Nat.add_1_r; by apply Hnz).
  rewrite while_true_S.
  rewrite (poll_once_error _ _ _ e)
    by (simpl; by rewrite Nat.add_1_r).
  simpl. unfold after. simpl.
  rewrite <- !app_assoc. simpl. do 2 f_equal. lia.
Qed.

Lemma stats_error_ends_polling_witness :
  shutdown_focus failing_stats_peer 5 example_bot initial =
    (Returned (),
     mkWorld 0 true
       [Send (shutdown_iq example_bot); LogInfo "Shutdown accepted";
        Send (create_request_stats_iq example_bot); Disconnect true] 2).
Proof.
  assert (Hacc : accepts failing_stats_peer) by (by eexists).
  apply (stats_error_ends_polling failing_stats_peer example_bot 0
           (mkStanzaError "cancel" "remote-server-timeout") 5 Hacc).
  - intros i Hi. lia.
  - reflexivity.
  - lia.
Defined.

(** ** Disconnecting *)

(** C4: on every exit path of a run (accepted and polled down to '0';
    rejected with error type 'wait' or condition 'service-unavailable';
    rejected with another error), [disconnect(wait=True)] is called exactly
    once; no run calls it twice, and no run exits after a live session
    without having called it. *)
Theorem disconnect_exactly_once peer opts :
  all_given opts → session_live peer →
  (∀ n fuel,
     accepts peer →
     (∀ i, (i < n)%nat → nonzero_poll peer (S i)) →
     poll_value peer (S n) = Some (Py.Str "0") →
     (n < fuel)%nat →
     (main peer fuel opts initial).1 = Exited 0 ∧
     disconnects (trace (main peer fuel opts initial).2) = [true]) ∧
  (∀ e fuel,
     reply peer 0 = Error e →
     etype e = "wait" ∨ condition e = "service-unavailable" →
     (main peer fuel opts initial).1 = Exited 0 ∧
     disconnects (trace (main peer fuel opts initial).2) = [true]) ∧
  (∀ e fuel,
     reply peer 0 = Error e →
     etype e ≠ "wait" ∧ condition e ≠ "service-unavailable" →
     (main peer fuel opts initial).1 = Exited 1 ∧
     disconnects (trace (main peer fuel opts initial).2) = [true]) ∧
  (∀ fuel,
     (length (disconnects (trace (main peer fuel opts initial).2)) ≤ 1)%nat ∧
     ∀ code, (main peer fuel opts initial).1 = Exited code →
             disconnects (trace (main peer fuel opts initial).2) = [true]).
Proof.
  intros Hg Hl. split; [|split; [|split]].
  - intros n fuel Hacc Hnz Hzero Hfuel.
    rewrite (main_drained peer opts Hg Hl Hacc n fuel) by done. simpl.
    split; [done|].
    by rewrite disconnects_app, waiting_trace_disconnects.
  - intros e fuel Hr Hf. apply fatal_false in Hf.
    by rewrite (main_rejected peer opts Hg fuel e Hl Hr), Hf.
  - intros e fuel Hr Hf. apply fatal_true in Hf.
    by rewrite (main_rejected peer opts Hg fuel e Hl Hr), Hf.
  - intros fuel. destruct (reply peer 0) as [resp|e] eqn:Hr.
    + destruct (decide (type resp = "result")) as [Ht|Ht].
      * assert (Hacc : accepts peer) by (by exists resp).
        destruct (main_accepted_quiet peer opts Hg Hl Hacc fuel)
          as (Hout & _ & _ & Hle & Hone).
        split; [done|]. intros code Hc.
        destruct Hout as [H|H]; [by apply Hone|].
        rewrite H in Hc. discriminate.
      * rewrite (main_other_type peer opts fuel resp Hg Hl Hr Ht). simpl.
        split; [lia|]. intros code Hc. discriminate.
    + rewrite (main_rejected peer opts Hg fuel e Hl Hr).
      destruct (fatal e); simpl; split; auto.
Qed.

Lemma disconnect_exactly_once_witness :
  (main draining_peer 3 example_opts initial).1 = Exited 0 ∧
  disconnects (trace (main draining_peer 3 example_opts initial).2) = [true].
Proof.
  assert (Hg : all_given example_opts) by (repeat split; by eexists).
  assert (Hacc : accepts draining_peer) by (by eexists).
  apply (proj1 (disconnect_exactly_once draining_peer example_opts
                  Hg (conj eq_refl eq_refl)) 2%nat 3%nat Hacc).
  - intros i Hi. destruct i as [|[|i]]; [| |lia];
      (eexists; split; [reflexivity | vm_compute; discriminate]).
  - reflexivity.
  - lia.
Defined.

(** ** Every run *)

(** Among the first [fuel] polls from request [start] on, either one is the
    first to report '0', or one is the first to raise, or all report
    something else. *)
Lemma first_decisive peer start fuel :
  (∃ n, (n < fuel)%nat ∧
        (∀ i, (i < n)%nat → nonzero_poll peer (i + start)) ∧
        poll_value peer (n + start) = Some (Py.Str "0")) ∨
  (∃ n e, (n < fuel)%nat ∧
          (∀ i, (i < n)%nat → nonzero_poll peer (i + start)) ∧
          reply peer (n + start) = Error e) ∨
  (∀ i, (i < fuel)%nat → nonzero_poll peer (i + start)).
Proof.
  induction fuel as [|fuel IH].
  - right. right. intros i Hi. lia.
  - destruct IH as [(n & Hn & Hnz & Hz)|[(n & e & Hn & Hnz & He)|Hall]].
    + left. exists n. split; [lia | done].
    + right. left. exists n, e. split; [lia | done].
    + destruct (reply peer (fuel + start)) as [resp|e] eqn:Hr.
      * destruct (decide (get_conferences (plugin resp ColibriStats)
                          = Py.Str "0")) as [Hv|Hv].
        -- left. exists fuel. split; [lia|]. split; [done|].
           unfold poll_value. by rewrite Hr, Hv.
        -- right. right. intros i Hi.
           destruct (decide (i = fuel)) as [->|Hne]; [|apply Hall; lia].
           eexists. split; [|exact Hv]. unfold poll_value. by rewrite Hr.
      * right. left. exists fuel, e. split; [lia | done].
Qed.

(** Accepted, and none of the first [fuel] polls reports '0': the loop is
    still running after [fuel] turns. *)
Lemma main_waiting peer opts fuel :
  all_given opts → session_live peer → accepts peer →
  (∀ i, (i < fuel)%nat → nonzero_poll peer (S i)) →
  main peer fuel opts initial =
    (NoExit,
     mkWorld 0 true
       ([Connect (server_of opts) 5222; Send (shutdown_iq (bot_of opts));
         LogInfo "Shutdown accepted"]
        ++ waiting_trace (bot_of opts) peer 1 fuel)
       (S fuel)).
Proof.
  intros Hg Hl Hacc Hnz.
  rewrite (main_accepted _ _ Hg _ Hl Hacc).
  replace fuel with (fuel + 0)%nat at 1 by lia.
  rewrite while_true_waiting
    by (intros i Hi; simpl; rewrite Nat.add_1_r; by apply Hnz).
  simpl. unfold after. simpl. do 2 f_equal. lia.
Qed.

(** Every run from the initial world takes one of the shapes. *)
Lemma main_shape peer opts fuel :
  run_shape peer opts fuel (main peer fuel opts initial).
Proof.
  destruct (decide (all_given opts)) as [Hg|Hg].
  2:{ destruct (main_missing_option peer fuel opts initial Hg) as [msg ->].
      by apply shape_missing. }
  destruct (connect_ok peer) eqn:Hc.
  2:{ rewrite (main_unconnected peer opts Hg fuel initial Hc).
      by apply shape_unconnected. }
  destruct (session_start peer) eqn:Hs.
  2:{ rewrite (main_no_session peer opts Hg fuel initial Hc Hs).
      by apply shape_no_session. }
  assert (Hl : session_live peer) by done.
  destruct (reply peer 0) as [resp|e] eqn:Hr.
  2:{ rewrite (main_rejected peer opts Hg fuel e Hl Hr).
      by apply shape_rejected. }
  destruct (decide (type resp = "result")) as [Ht|Ht].
  2:{ rewrite (main_other_type peer opts fuel resp Hg Hl Hr Ht).
      by apply (shape_other_type _ _ _ resp). }
  assert (Hacc : accepts peer) by (by exists resp).
  assert (Hshift : ∀ n, (∀ i, (i < n)%nat → nonzero_poll peer (i + 1)) →
                        ∀ i, (i < n)%nat → nonzero_poll peer (S i)).
  { intros n H i Hi. rewrite <- Nat.add_1_r. by apply H. }
  destruct (first_decisive peer 1 fuel)
    as [(n & Hn & Hnz & Hz)|[(n & e & Hn & Hnz & He)|Hall]].
  - rewrite Nat.add_1_r in Hz.
    rewrite (main_drained peer opts Hg Hl Hacc n fuel (Hshift n Hnz) Hz Hn).
    apply shape_drained; try done. by apply Hshift.
  - rewrite Nat.add_1_r in He.
    rewrite (main_stats_error peer opts Hg Hl Hacc n e fuel
               (Hshift n Hnz) He Hn).
    apply (shape_stats_error _ _ _ n e); try done. by apply Hshift.
  - rewrite (main_waiting peer opts fuel Hg Hl Hacc (Hshift fuel Hall)).
    apply shape_waiting; try done. by apply Hshift.
Qed.

(** ** The command line *)

(** X1: the four required options are checked in the order server, jid,
    password, focus; the first one missing is reported on standard error
    and the process exits with code 1 without connecting; with all four
    given, the first thing a run does is connect to the server on port
    5222. *)
Theorem missing_option_exits_early peer fuel opts :
  (opt_server opts = None →
   main peer fuel opts initial =
     (Exited 1, mkWorld 0 false [Stderr "No XMPP server name specified"] 0)) ∧
  (is_Some (opt_server opts) → opt_jid opts = None →
   main peer fuel opts initial =
     (Exited 1, mkWorld 0 false [Stderr "No user JID specified"] 0)) ∧
  (is_Some (opt_server opts) → is_Some (opt_jid opts) →
   opt_password opts = None →
   main peer fuel opts initial =
     (Exited 1, mkWorld 0 false [Stderr "No user password specified"] 0)) ∧
  (is_Some (opt_server opts) → is_Some (opt_jid opts) →
   is_Some (opt_password opts) → opt_focus opts = None →
   main peer fuel opts initial =
     (Exited 1, mkWorld 0 false [Stderr "No focus JID specified"] 0)) ∧
  (all_given opts →
   ∃ evs, trace (main peer fuel opts initial).2
          = Connect (server_of opts) 5222 :: evs).
Proof.
  split; [|split; [|split; [|split]]].
  - intros Es. unfold main. by rewrite Es.
  - intros [s Es] Ej. unfold main. by rewrite Es, Ej.
  - intros [s Es] [j Ej] Ep. unfold main. by rewrite Es, Ej, Ep.
  - intros [s Es] [j Ej] [p Ep] Ef. unfold main. by rewrite Es, Ej, Ep, Ef.
  - intros Hg. destruct (main_shape peer opts fuel);
      try (eexists; simpl; reflexivity). done.
Qed.

Lemma missing_option_exits_early_witness :
  main draining_peer 5
       (mkOptions 20 (Some "xmpp.example.org") (Some "admin@example.org")
                  (Some "secret") None)
       initial =
    (Exited 1, mkWorld 0 false [Stderr "No focus JID specified"] 0).
Proof.
  apply (proj1 (proj2 (proj2 (proj2
           (missing_option_exits_early draining_peer 5
              (mkOptions 20 (Some "xmpp.example.org")
                         (Some "admin@example.org") (Some "secret") None))))));
    try (by eexists); reflexivity.
Defined.

(** X2: the exit code of the process is 0 or 1 and no StanzaError leaves
    the program; it is 1 exactly when a required option is missing, or the
    session is live and the shutdown request raised an error whose type is
    not 'wait' and whose condition is not 'service-unavailable'. *)
Theorem exit_code_characterised peer fuel opts :
  (∀ e, (main peer fuel opts initial).1 ≠ Uncaught e) ∧
  (∀ code, (main peer fuel opts initial).1 = Exited code →
           code = 0 ∨ code = 1) ∧
  ((main peer fuel opts initial).1 = Exited 1 ↔
   ¬ all_given opts ∨
   (session_live peer ∧
    ∃ e, reply peer 0 = Error e ∧
         etype e ≠ "wait" ∧ condition e ≠ "service-unavailable")).
Proof.
  destruct (main_shape peer opts fuel)
    as [msg Hg|Hg Hc|Hg Hc Hs|e Hg Hl Hr|resp Hg Hl Hr Ht
        |n Hg Hl Hacc Hn Hnz Hz|n e Hg Hl Hacc Hn Hnz He|Hg Hl Hacc Hnz];
    simpl.
  - split; [done|]. split; [intros code [= <-]; by right|].
    split; [by left | done].
  - split; [done|]. split; [intros code [= <-]; by left|].
    split; [done|]. intros [H|([Hc' _] & _)]; [done | congruence].
  - split; [done|]. split; [intros code [= <-]; by left|].
    split; [done|]. intros [H|([_ Hs'] & _)]; [done | congruence].
  - split; [done|]. destruct (fatal e) eqn:Hf.
    + apply fatal_true in Hf. split; [intros code [= <-]; by right|].
      split; [|done]. intros _. right. split; [done|]. by exists e.
    + apply fatal_false in Hf. split; [intros code [= <-]; by left|].
      split; [done|]. intros [H|(_ & e' & He' & Hw & Hsu)]; [done|].
      rewrite Hr in He'. injection He' as <-. destruct Hf; done.
  - split; [done|]. split; [done|]. split; [done|].
    intros [H|(_ & e' & He' & _)]; [done | congruence].
  - destruct Hacc as (resp & Hr & _).
    split; [done|]. split; [intros code [= <-]; by left|].
    split; [done|]. intros [H|(_ & e' & He' & _)]; [done | congruence].
  - destruct Hacc as (resp & Hr & _).
    split; [done|]. split; [intros code [= <-]; by left|].
    split; [done|]. intros [H|(_ & e' & He' & _)]; [done | congruence].
  - destruct Hacc as (resp & Hr & _).
    split; [done|]. split; [done|]. split; [done|].
    intros [H|(_ & e' & He' & _)]; [done | congruence].
Qed.

Lemma exit_code_characterised_witness :
  (main (rejecting_peer (mkStanzaError "cancel" "forbidden")) 0
        example_opts initial).1 = Exited 1.
Proof.
  apply (proj2 (proj2 (exit_code_characterised
                         (rejecting_peer (mkStanzaError "cancel" "forbidden"))
                         0 example_opts))).
  right. split; [split; reflexivity|].
  exists (mkStanzaError "cancel" "forbidden").
  split; [reflexivity|]. split; discriminate.
Defined.

(** ** Requests and sleeps *)

Lemma pace_app t1 t2 : pace (t1 ++ t2) = pace t1 ++ pace t2.
Proof. induction t1 as [|[] t1 IH]; simpl; by rewrite ?IH. Qed.

Lemma waiting_trace_pace self peer start n :
  pace (waiting_trace self peer start n)
  = rounds (create_request_stats_iq self) n.
Proof.
  revert start. induction n as [|n IH]; intros start; simpl; [done|].
  do 2 f_equal. apply IH.
Qed.

(** X4: the shutdown request is the first request of a run and is sent
    once; every later request is the stats query, a different stanza; every
    sleep lasts 10 seconds and follows a stats query, one sleep between two
    successive queries; and a run that exits never ends on a sleep. *)
Theorem requests_and_sleeps_alternate peer fuel opts :
  let shutdown := shutdown_iq (bot_of opts) in
  let stats := create_request_stats_iq (bot_of opts) in
  let r := main peer fuel opts initial in
  shutdown ≠ stats ∧
  (pace (trace r.2) = [] ∨
   (∃ n, (n ≤ fuel)%nat ∧
         pace (trace r.2) = inl shutdown :: rounds stats n ∧
         (n = 0%nat ∨ r.1 = NoExit)) ∨
   (∃ n, (n < fuel)%nat ∧
         pace (trace r.2) = inl shutdown :: rounds stats n ++ [inl stats] ∧
         r.1 = Exited 0)).
Proof.
  intros shutdown stats r. split; [discriminate|]. unfold r.
  destruct (main_shape peer opts fuel)
    as [msg Hg|Hg Hc|Hg Hc Hs|e Hg Hl Hr|resp Hg Hl Hr Ht
        |n Hg Hl Hacc Hn Hnz Hz|n e Hg Hl Hacc Hn Hnz He|Hg Hl Hacc Hnz];
    simpl.
  - by left.
  - by left.
  - by left.
  - right. left. exists 0%nat. split; [lia|]. split; [|by left].
    destruct (fatal e); reflexivity.
  - right. left. exists 0%nat. split; [lia|]. split; [done | by left].
  - right. right. exists n. split; [done|]. split; [|done].
    by rewrite pace_app, waiting_trace_pace.
  - right. right. exists n. split; [done|]. split; [|done].
    by rewrite pace_app, waiting_trace_pace.
  - right. left. exists fuel. split; [done|]. split; [|by right].
    by rewrite waiting_trace_pace.
Qed.

Lemma requests_and_sleeps_alternate_witness :
  pace (trace (main draining_peer 3 example_opts initial).2)
  = [inl (shutdown_iq example_bot);
     inl (create_request_stats_iq example_bot); inr 10;
     inl (create_request_stats_iq example_bot); inr 10;
     inl (create_request_stats_iq example_bot)].
Proof.
  destruct (requests_and_sleeps_alternate draining_peer 3 example_opts)
    as [_ [H|[(n & _ & H & _)|(n & _ & H & _)]]];
    reflexivity.
Defined.

(** X5: the loop has no bound of its own: against a peer that accepts the
    shutdown and never reports '0' nor fails, a run has not exited after
    any number of turns; after [fuel] turns it has sent [fuel] stats
    queries, slept [fuel] times 10 seconds and has not disconnected. *)
Theorem polls_without_bound peer opts fuel :
  all_given opts → session_live peer → accepts peer →
  (∀ i, nonzero_poll peer (S i)) →
  let r := main peer fuel opts initial in
  r.1 = NoExit ∧
  sends (trace r.2)
    = shutdown_iq (bot_of opts)
      :: replicate fuel (create_request_stats_iq (bot_of opts)) ∧
  sleeps (trace r.2) = replicate fuel 10 ∧
  disconnects (trace r.2) = [] ∧
  exitCode r.2 = 0.
Proof.
  intros Hg Hl Hacc Hnz r. unfold r.
  rewrite (main_waiting peer opts fuel Hg Hl Hacc) by (intros i _; apply Hnz).
  simpl. split; [done|].
  by rewrite waiting_trace_sends, waiting_trace_sleeps,
             waiting_trace_disconnects.
Qed.

Lemma polls_without_bound_witness :
  (main busy_peer 25 example_opts initial).1 = NoExit ∧
  sleeps (trace (main busy_peer 25 example_opts initial).2) = replicate 25 10.
Proof.
  assert (Hg : all_given example_opts) by (repeat split; by eexists).
  assert (Hacc : accepts busy_peer) by (by eexists).
  assert (Hnz : ∀ i, nonzero_poll busy_peer (S i)).
  { intros i. eexists. split; [reflexivity | vm_compute; discriminate]. }
  destruct (polls_without_bound busy_peer example_opts 25
              Hg (conj eq_refl eq_refl) Hacc Hnz) as (H1 & _ & H2 & _).
  split; [exact H1 | exact H2].
Defined.

(** ** After the disconnect *)

(** In a trace with a single disconnect, a disconnect found anywhere is
    that one. *)
Lemma single_disconnect_split (A R pre post : list Event) (b1 b2 : bool) :
  disconnects A = [] → disconnects R = [] →
  A ++ Disconnect b1 :: R = pre ++ Disconnect b2 :: post →
  pre = A ∧ b2 = b1 ∧ post = R.
Proof.
  intros HA HR. revert pre. induction A as [|a A IH]; intros pre Heq.
  - destruct pre as [|x pre]; simpl in Heq.
    + injection Heq as Hb HR'. by subst.
    + injection Heq as Hx Heq. subst x. rewrite Heq, disconnects_app in HR.
      simpl in HR. by destruct (disconnects pre).
  - destruct pre as [|x pre]; simpl in Heq.
    + injection Heq as Ha _. subst a. simpl in HA. discriminate.
    + injection Heq as Hx Heq. subst x.
      assert (HA' : disconnects A = []) by (destruct a; simpl in HA; done).
      destruct (IH HA' pre Heq) as (Hp & Hb & Hpost). by subst.
Qed.

Lemma no_disconnect_no_split (T pre post : list Event) (b : bool) :
  disconnects T = [] → T ≠ pre ++ Disconnect b :: post.
Proof.
  intros HT ->. rewrite disconnects_app in HT. simpl in HT.
  by destruct (disconnects pre).
Qed.

(** X6: a disconnect is always called with [wait=True], it is the last
    thing a run does with the stream (no request, sleep or second
    disconnect comes after it), the only thing that follows is the log
    line 'Done', and the run exits. *)
Theorem disconnect_is_last peer fuel opts pre post b :
  trace (main peer fuel opts initial).2 = pre ++ Disconnect b :: post →
  b = true ∧ post = [LogInfo "Done"] ∧ disconnects pre = [] ∧
  ∃ code, (main peer fuel opts initial).1 = Exited code.
Proof.
  destruct (main_shape peer opts fuel)
    as [msg Hg|Hg Hc|Hg Hc Hs|e Hg Hl Hr|resp Hg Hl Hr Ht
        |n Hg Hl Hacc Hn Hnz Hz|n e Hg Hl Hacc Hn Hnz He|Hg Hl Hacc Hnz];
    simpl; intros Heq.
  - by apply no_disconnect_no_split in Heq.
  - by apply no_disconnect_no_split in Heq.
  - by apply no_disconnect_no_split in Heq.
  - change (Connect (server_of opts) 5222 :: Send (shutdown_iq (bot_of opts))
              :: (if fatal e
                  then [AssignExitCode 1;
                        LogError "There was an error sending shutdown request."]
                  else [])
              ++ [Disconnect true; LogInfo "Done"])
      with ((Connect (server_of opts) 5222 :: Send (shutdown_iq (bot_of opts))
              :: (if fatal e
                  then [AssignExitCode 1;
                        LogError "There was an error sending shutdown request."]
                  else []))
            ++ Disconnect true :: [LogInfo "Done"]) in Heq.
    apply single_disconnect_split in Heq as (-> & -> & ->);
      [|by destruct (fatal e)|done].
    split; [done|]. split; [done|]. split; [by destruct (fatal e)|].
    by eexists.
  - by apply no_disconnect_no_split in Heq.
  - set (A := Connect (server_of opts) 5222 :: Send (shutdown_iq (bot_of opts))
              :: LogInfo "Shutdown accepted"
              :: waiting_trace (bot_of opts) peer 1 n
              ++ [Send (create_request_stats_iq (bot_of opts));
                  LogInfo "There are 0 conferences in progress";
                  LogInfo "End of shutdown procedure"]).
    assert (HA : disconnects A = [])
      by (unfold A; simpl;
          by rewrite disconnects_app, waiting_trace_disconnects).
    assert (E : Connect (server_of opts) 5222
                :: Send (shutdown_iq (bot_of opts))
                :: LogInfo "Shutdown accepted"
                :: waiting_trace (bot_of opts) peer 1 n
                ++ [Send (create_request_stats_iq (bot_of opts));
                    LogInfo "There are 0 conferences in progress";
                    LogInfo "End of shutdown procedure"; Disconnect true;
                    LogInfo "Done"]
                = A ++ Disconnect true :: [LogInfo "Done"])
      by (unfold A; simpl; by rewrite <- app_assoc).
    rewrite E in Heq.
    apply single_disconnect_split in Heq as (-> & -> & ->); [|done|done].
    split; [done|]. split; [done|]. split; [done|]. by eexists.
  - set (A := Connect (server_of opts) 5222 :: Send (shutdown_iq (bot_of opts))
              :: LogInfo "Shutdown accepted"
              :: waiting_trace (bot_of opts) peer 1 n
              ++ [Send (create_request_stats_iq (bot_of opts))]).
    assert (HA : disconnects A = [])
      by (unfold A; simpl;
          by rewrite disconnects_app, waiting_trace_disconnects).
    assert (E : Connect (server_of opts) 5222
                :: Send (shutdown_iq (bot_of opts))
                :: LogInfo "Shutdown accepted"
                :: waiting_trace (bot_of opts) peer 1 n
                ++ [Send (create_request_stats_iq (bot_of opts));
                    Disconnect true; LogInfo "Done"]
                = A ++ Disconnect true :: [LogInfo "Done"])
      by (unfold A; simpl; by rewrite <- app_assoc).
    rewrite E in Heq.
    apply single_disconnect_split in Heq as (-> & -> & ->); [|done|done].
    split; [done|]. split; [done|]. split; [done|]. by eexists.
  - apply no_disconnect_no_split in Heq; [done|].
    simpl. apply waiting_trace_disconnects.
Qed.

Lemma disconnect_is_last_witness :
  ∃ pre,
    trace (main idle_peer 1 example_opts initial).2
    = pre ++ [Disconnect true; LogInfo "Done"] ∧ disconnects pre = [].
Proof.
  exists [Connect "xmpp.example.org" 5222; Send (shutdown_iq example_bot);
          LogInfo "Shutdown accepted";
          Send (create_request_stats_iq example_bot);
          LogInfo "There are 0 conferences in progress";
          LogInfo "End of shutdown procedure"].
  split; [reflexivity|].
  apply (disconnect_is_last idle_peer 1 example_opts _ [LogInfo "Done"] true).
  reflexivity.
Defined.

(** ** Declaring the shutdown over *)

Lemma waiting_trace_no_end self peer start n :
  LogInfo "End of shutdown procedure" ∉ waiting_trace self peer start n.
Proof.
  revert start. induction n as [|n IH]; intros start; simpl.
  - apply not_elem_of_nil.
  - intros H.
    apply elem_of_cons in H as [H|H]; [discriminate|].
    apply elem_of_cons in H as [H|H];
      [injection H as H; unfold count_line in H; simpl in H; discriminate|].
    apply elem_of_cons in H as [H|H]; [discriminate|].
    by apply (IH (S start)).
Qed.

(** X7: 'End of shutdown procedure' is logged exactly when the shutdown
    request was accepted and, within the turns allowed, a stats query
    reported the count '0' after queries that all reported something else;
    the log line never appears after a failed stats query, after a
    rejected shutdown request or while the loop is still waiting. *)
Theorem end_logged_iff_zero_seen peer fuel opts :
  LogInfo "End of shutdown procedure" ∈ trace (main peer fuel opts initial).2
  ↔
  all_given opts ∧ session_live peer ∧ accepts peer ∧
  ∃ n, (n < fuel)%nat ∧
       (∀ i, (i < n)%nat → nonzero_poll peer (S i)) ∧
       poll_value peer (S n) = Some (Py.Str "0").
Proof.
  split.
  - destruct (main_shape peer opts fuel)
      as [msg Hg|Hg Hc|Hg Hc Hs|e Hg Hl Hr|resp Hg Hl Hr Ht
          |n Hg Hl Hacc Hn Hnz Hz|n e Hg Hl Hacc Hn Hnz He|Hg Hl Hacc Hnz];
      simpl; intros H.
    + apply elem_of_cons in H as [H|H]; [discriminate|].
      by apply elem_of_nil in H.
    + repeat (apply elem_of_cons in H as [H|H]; [discriminate|]).
      by apply elem_of_nil in H.
    + repeat (apply elem_of_cons in H as [H|H]; [discriminate|]).
      by apply elem_of_nil in H.
    + do 2 (apply elem_of_cons in H as [H|H]; [discriminate|]).
      destruct (fatal e); simpl in H;
        repeat (apply elem_of_cons in H as [H|H]; [discriminate|]);
        by apply elem_of_nil in H.
    + repeat (apply elem_of_cons in H as [H|H]; [discriminate|]).
      by apply elem_of_nil in H.
    + split; [done|]. split; [done|]. split; [done|]. by exists n.
    + do 3 (apply elem_of_cons in H as [H|H]; [discriminate|]).
      apply elem_of_app in H as [H|H];
        [by apply waiting_trace_no_end in H|].
      repeat (apply elem_of_cons in H as [H|H]; [discriminate|]).
      by apply elem_of_nil in H.
    + do 3 (apply elem_of_cons in H as [H|H]; [discriminate|]).
      by apply waiting_trace_no_end in H.
  - intros (Hg & Hl & Hacc & n & Hn & Hnz & Hz).
    rewrite (main_drained peer opts Hg Hl Hacc n fuel Hnz Hz Hn). simpl.
    do 3 apply list_elem_of_further. apply elem_of_app. right.
    do 2 apply list_elem_of_further. apply list_elem_of_here.
Qed.

Lemma end_logged_iff_zero_seen_witness :
  LogInfo "End of shutdown procedure"
  ∈ trace (main draining_peer 3 example_opts initial).2.
Proof.
  apply (end_logged_iff_zero_seen draining_peer 3 example_opts).
  split; [repeat split; by eexists|].
  split; [split; reflexivity|]. split; [by eexists|].
  exists 2%nat. split; [lia|]. split; [|reflexivity].
  intros i Hi. destruct i as [|[|i]]; [| |lia];
    (eexists; split; [reflexivity | vm_compute; discriminate]).
Defined.

(** ** The handler from any world *)

(** X8: whatever world it starts in, the handler lets no StanzaError out,
    begins by sending the shutdown request, and leaves [exitCode] as it
    found it or sets it to 1 (so never back from 1 to 0); it sets it only
    when the shutdown request itself raised an error whose type is not
    'wait' and whose condition is not 'service-unavailable'. *)
Theorem handler_contains_errors peer fuel self w :
  let r := shutdown_focus peer fuel self w in
  (∀ e, r.1 ≠ Raised e) ∧
  (∃ evs, trace r.2 = trace w ++ Send (shutdown_iq self) :: evs) ∧
  (exitCode r.2 = exitCode w ∨ exitCode r.2 = 1) ∧
  (assignments (trace r.2) ≠ assignments (trace w) →
   ∃ e, reply peer (sent w) = Error e ∧
        etype e ≠ "wait" ∧ condition e ≠ "service-unavailable").
Proof.
  intros r. unfold r. clear r.
  destruct (reply peer (sent w)) as [resp|e] eqn:Hr.
  - destruct (decide (type resp = "result")) as [Ht|Ht].
    + rewrite (shutdown_focus_accepted peer self fuel w resp Hr Ht).
      match goal with |- context [while_true fuel ?b ?w1] =>
        pose proof (while_true_quiet peer self fuel w1)
          as (Hx & _ & _ & evs & Htr & _ & Ha);
        destruct (while_true fuel b w1) as [[[]|e|] w2] end;
        simpl in *; rewrite Htr, <- !app_assoc; simpl;
        (split; [done|]); (split; [by eexists|]); (split; [by left|]);
        rewrite !assignments_app; simpl; rewrite ?assignments_app, Ha;
        simpl; rewrite ?app_nil_r; done.
    + rewrite (shutdown_focus_other_type peer self fuel w resp Hr Ht). simpl.
      split; [done|]. split; [by eexists|]. split; [by left|].
      rewrite assignments_app. simpl. by rewrite app_nil_r.
  - rewrite (shutdown_focus_rejected peer self fuel w e Hr). simpl.
    split; [done|]. split; [by eexists|].
    destruct (fatal e) eqn:Hf.
    + split; [by right|]. intros _. apply fatal_true in Hf. by exists e.
    + split; [by left|]. rewrite assignments_app. simpl.
      by rewrite app_nil_r.
Qed.

Lemma handler_contains_errors_witness :
  exitCode (shutdown_focus
              (rejecting_peer (mkStanzaError "wait" "resource-constraint"))
              0 example_bot (mkWorld 1 false [] 0)).2 = 1.
Proof.
  destruct (handler_contains_errors
              (rejecting_peer (mkStanzaError "wait" "resource-constraint"))
              0 example_bot (mkWorld 1 false [] 0)) as (_ & _ & [H|H] & _);
    exact H.
Defined.

(** ** More on the counter extraction *)

Lemma get_conferences_loop_skip (l1 l2 : list Xml.Element) (c : Xml.Element) :
  Xml.get c "name" ≠ Some "conferences" →
  get_conferences_loop (l1 ++ c :: l2) = get_conferences_loop (l1 ++ l2).
Proof.
  intros Hc. induction l1 as [|x l1 IH]; simpl.
  - by rewrite decide_False.
  - by rewrite IH.
Qed.

(** X9: only the children that are colibri [stat] elements named
    'conferences' count: removing any other child (an element with another
    tag or namespace, or a stat with another or no name) leaves the
    extracted count unchanged, and so does changing the tag or the
    attributes of the stats element itself. *)
Theorem other_children_ignored
    (t t' : string) (a a' : gmap string string)
    (l1 l2 : list Xml.Element) (c : Xml.Element) :
  ¬ (Xml.tag c = "{http://jitsi.org/protocol/colibri}stat" ∧
     Xml.get c "name" = Some "conferences") →
  get_conferences (Xml.mkElement t a (l1 ++ c :: l2))
  = get_conferences (Xml.mkElement t' a' (l1 ++ l2)).
Proof.
  intros Hc. unfold get_conferences, Xml.findall. simpl.
  rewrite !filter_app.
  destruct (decide (Xml.tag c = "{http://jitsi.org/protocol/colibri}stat"))
    as [Ht|Ht].
  - rewrite filter_cons_True by done.
    apply get_conferences_loop_skip. intros Hn. by destruct Hc.
  - by rewrite filter_cons_False.
Qed.

Lemma other_children_ignored_witness :
  get_conferences
    (mk_stats [mk_stat "threads" "12";
               Xml.mkElement "{urn:example}stat"
                             {[ "name" := "conferences"; "value" := "0" ]} [];
               mk_stat "conferences" "4"])
  = get_conferences (mk_stats [mk_stat "threads" "12"; mk_stat "conferences" "4"]).
Proof.
  apply (other_children_ignored _ _ _ _ [mk_stat "threads" "12"]
           [mk_stat "conferences" "4"]).
  intros [Ht _]. vm_compute in Ht. discriminate.
Defined.

(** X10: [get_conferences] gives -1 exactly when no colibri stat is named
    'conferences'; it gives no other integer; and a string it gives is the
    value attribute of a stat named 'conferences' (so a reported value
    "-1" comes back as a string, not as the sentinel). *)
Theorem sentinel_iff_absent (x : Xml.Element) :
  (get_conferences x = Py.Int (-1) ↔
   ∀ s, s ∈ Xml.findall x "{http://jitsi.org/protocol/colibri}stat" →
        Xml.get s "name" ≠ Some "conferences") ∧
  (∀ z, get_conferences x = Py.Int z → z = -1) ∧
  (∀ v, get_conferences x = Py.Str v →
        ∃ s, s ∈ Xml.children x ∧
             Xml.tag s = "{http://jitsi.org/protocol/colibri}stat" ∧
             Xml.get s "name" = Some "conferences" ∧
             Xml.get s "value" = Some v).
Proof.
  unfold get_conferences.
  destruct (get_conferences_loop_spec
              (Xml.findall x "{http://jitsi.org/protocol/colibri}stat"))
    as [[E Hno]|(s & Hs & Hn & E)]; rewrite E.
  - split; [done|]. split; [by intros z [= <-]|]. intros v Hv. discriminate.
  - split; [|split].
    + split.
      * intros H. by apply of_attr_not_sentinel in H.
      * intros Hno. by destruct (Hno s Hs).
    + intros z Hz. by destruct (Xml.get s "value").
    + intros v Hv. exists s.
      apply list_elem_of_filter in Hs as [Ht Hin].
      split; [done|]. split; [done|]. split; [done|].
      destruct (Xml.get s "value"); [by injection Hv as -> | discriminate].
Qed.

Lemma sentinel_iff_absent_witness :
  get_conferences (mk_stats [mk_stat "conferences" "-1"]) = Py.Str "-1" ∧
  get_conferences (mk_stats [mk_stat "threads" "-1"]) = Py.Int (-1).
Proof.
  split; [reflexivity|].
  apply (proj1 (sentinel_iff_absent (mk_stats [mk_stat "threads" "-1"]))).
  intros s Hs. vm_compute in Hs.
  apply elem_of_cons in Hs as [->|Hs]; [|by apply elem_of_nil in Hs].
  vm_compute. discriminate.
Defined.



(** ** What goes over the wire *)

(** The requests of a run: none, or the shutdown request followed by
    stats queries. *)
Lemma main_sends peer fuel opts :
  sends (trace (main peer fuel opts initial).2) = [] ∨
  (all_given opts ∧
   ∃ k, sends (trace (main peer fuel opts initial).2)
        = shutdown_iq (bot_of opts)
          :: replicate k (create_request_stats_iq (bot_of opts))).
Proof.
  destruct (main_shape peer opts fuel)
    as [msg Hg|Hg Hc|Hg Hc Hs|e Hg Hl Hr|resp Hg Hl Hr Ht
        |n Hg Hl Hacc Hn Hnz Hz|n e Hg Hl Hacc Hn Hnz He|Hg Hl Hacc Hnz];
    simpl; try (by left); right; (split; [done|]).
  - exists 0%nat. by destruct (fatal e).
  - by exists 0%nat.
  - exists (S n). rewrite sends_app, waiting_trace_sends. simpl.
    f_equal. change (create_request_stats_iq (bot_of opts)
                     :: replicate n (create_request_stats_iq (bot_of opts)))
      with (replicate (S n) (create_request_stats_iq (bot_of opts))).
    by rewrite replicate_S_end.
  - exists (S n). rewrite sends_app, waiting_trace_sends. simpl.
    f_equal. change (create_request_stats_iq (bot_of opts)
                     :: replicate n (create_request_stats_iq (bot_of opts)))
      with (replicate (S n) (create_request_stats_iq (bot_of opts))).
    by rewrite replicate_S_end.
  - exists fuel. by rewrite waiting_trace_sends.
Qed.

(** X12: every request a run sends is addressed to the focus JID given on
    the command line and carries a single empty element of the colibri
    namespace: a 'set' with [graceful-shutdown], or a 'get' with
    [stats]. *)
Theorem every_request_goes_to_focus peer fuel opts iq :
  iq ∈ sends (trace (main peer fuel opts initial).2) →
  opt_focus opts = Some (to iq) ∧
  ((type iq = "set" ∧
    payload iq =
      [Xml.mkElement "{http://jitsi.org/protocol/colibri}graceful-shutdown"
                     ∅ []]) ∨
   (type iq = "get" ∧
    payload iq =
      [Xml.mkElement "{http://jitsi.org/protocol/colibri}stats" ∅ []])).
Proof.
  intros Hin.
  destruct (main_sends peer fuel opts) as [E|[Hg [k E]]]; rewrite E in Hin.
  - by apply elem_of_nil in Hin.
  - destruct Hg as (_ & _ & _ & [f Ef]).
    apply elem_of_cons in Hin as [->|Hin].
    + split; [simpl; by rewrite Ef | by left].
    + apply elem_of_replicate in Hin as [-> _].
      split; [simpl; by rewrite Ef | by right].
Qed.

Lemma every_request_goes_to_focus_witness :
  opt_focus example_opts = Some (to (create_request_stats_iq example_bot)) ∧
  type (create_request_stats_iq example_bot) = "get".
Proof.
  destruct (every_request_goes_to_focus draining_peer 3 example_opts
              (create_request_stats_iq example_bot)) as [Hto [[H _]|[H _]]].
  - vm_compute. do 2 apply list_elem_of_further. apply list_elem_of_here.
  - vm_compute in H. discriminate.
  - split; [exact Hto | exact H].
Defined.

(** ** The last turn of the loop *)

(** A turn of the loop sends at least one request. *)
Lemma while_true_S_sent peer self fuel w :
  (S (sent w) ≤ sent (while_true (S fuel) (poll_once peer self) w).2)%nat.
Proof.
  rewrite while_true_S.
  destruct (reply peer (sent w)) as [resp|e] eqn:Hr.
  - rewrite (poll_once_response _ _ _ _ Hr).
    destruct (Py.eqb _ _); simpl; [lia|].
    match goal with |- context [while_true fuel ?b ?w1] =>
      destruct (while_true_quiet peer self fuel w1) as (_ & _ & Hs & _) end.
    simpl in Hs. lia.
  - rewrite (poll_once_error _ _ _ _ Hr). simpl. lia.
Qed.

(** C1, as stated, fails: the shutdown request is accepted and the first
    stats query raises; no request of the run is answered with the count
    '0', yet that first turn of the loop is the last one, however many
    turns are allowed, and the run exits with code 0 after it. *)
Lemma last_turn_without_zero :
  (∀ i, poll_value failing_stats_peer i ≠ Some (Py.Str "0")) ∧
  (∀ fuel,
     while_true (S fuel) (poll_once failing_stats_peer example_bot)
                (mkWorld 0 true [] 1)
     = (Raised (mkStanzaError "cancel" "remote-server-timeout"),
        mkWorld 0 true [Send (create_request_stats_iq example_bot)] 2)) ∧
  (∀ fuel,
     main failing_stats_peer (S fuel) example_opts initial
     = (Exited 0,
        mkWorld 0 true
          [Connect "xmpp.example.org" 5222; Send (shutdown_iq example_bot);
           LogInfo "Shutdown accepted";
           Send (create_request_stats_iq example_bot); Disconnect true;
           LogInfo "Done"] 2)).
Proof.
  split; [|split].
  - intros i. destruct i as [|[|i]]; vm_compute; discriminate.
  - intros fuel. rewrite while_true_S.
    by rewrite (poll_once_error failing_stats_peer example_bot _
                  (mkStanzaError "cancel" "remote-server-timeout")).
  - intros fuel.
    assert (Hg : all_given example_opts) by (repeat split; by eexists).
    assert (Hacc : accepts failing_stats_peer) by (by eexists).
    apply (main_stats_error failing_stats_peer example_opts Hg
             (conj eq_refl eq_refl) Hacc 0
             (mkStanzaError "cancel" "remote-server-timeout") (S fuel));
      [intros i Hi; lia | reflexivity | lia].
Qed.

(** C1, amended: in the polling loop, a turn whose stats query is answered
    is the last one exactly when the extracted count equals the string
    '0'; for any other extracted value, the sentinel -1 of an absent
    counter included, the loop sleeps 10 seconds and sends the next query.
    A turn whose stats query raises StanzaError is the last one too: the
    exception leaves the loop with no count extracted, no log line, no
    sleep and no further query. So a turn is the last one exactly when its
    query is answered with the count '0' or raises. *)
Theorem loop_turn_is_last_iff peer self w :
  let body := poll_once peer self in
  let stats_iq := create_request_stats_iq self in
  (∀ resp,
     reply peer (sent w) = Response resp →
     let conf_count := get_conferences (plugin resp ColibriStats) in
     let polled := [Send stats_iq; LogInfo (count_line conf_count)] in
     ((body w).1 = Returned Break ↔ conf_count = Py.Str "0") ∧
     (conf_count = Py.Str "0" →
      ∀ fuel, while_true (S fuel) body w = (Returned (), after w polled 1)) ∧
     (conf_count ≠ Py.Str "0" →
      body w = (Returned Continue, after w (polled ++ [Sleep 10]) 1) ∧
      ∀ fuel,
        while_true (S fuel) body w =
          while_true fuel body (after w (polled ++ [Sleep 10]) 1) ∧
        ∃ evs, trace (while_true (S (S fuel)) body w).2 =
               trace w ++ polled ++ [Sleep 10; Send stats_iq] ++ evs) ∧
     (conf_count = Py.Int (-1) → (body w).1 = Returned Continue)) ∧
  (∀ e,
     reply peer (sent w) = Error e →
     body w = (Raised e, after w [Send stats_iq] 1) ∧
     ∀ fuel, while_true (S fuel) body w = (Raised e, after w [Send stats_iq] 1)) ∧
  ((∀ fuel, sent (while_true (S fuel) body w).2 = S (sent w)) ↔
   poll_value peer (sent w) = Some (Py.Str "0") ∨
   ∃ e, reply peer (sent w) = Error e).
Proof.
  intros body stats_iq. unfold body, stats_iq.
  assert (Herr : ∀ e, reply peer (sent w) = Error e →
            poll_once peer self w
              = (Raised e, after w [Send (create_request_stats_iq self)] 1) ∧
            ∀ fuel, while_true (S fuel) (poll_once peer self) w
              = (Raised e, after w [Send (create_request_stats_iq self)] 1)).
  { intros e He. pose proof (poll_once_error peer self w e He) as Hp.
    split; [exact Hp|]. intros fuel. by rewrite while_true_S, Hp. }
  split; [|split].
  - intros resp Hr. exact (answered_turn peer self w resp Hr).
  - exact Herr.
  - split.
    + intros Hlast. destruct (reply peer (sent w)) as [resp|e] eqn:Hr;
        [|right; by exists e].
      left. unfold poll_value. rewrite Hr. f_equal.
      destruct (decide (get_conferences (plugin resp ColibriStats)
                        = Py.Str "0")) as [Hz|Hnz]; [done|].
      destruct (answered_turn peer self w resp Hr) as (_ & _ & Hcont & _).
      destruct (Hcont Hnz) as (_ & Hstep).
      destruct (Hstep 1%nat) as (Hs1 & _).
      specialize (Hlast 1%nat). rewrite Hs1 in Hlast.
      pose proof (while_true_S_sent peer self 0
                    (after w ([Send (create_request_stats_iq self);
                               LogInfo (count_line
                                 (get_conferences (plugin resp ColibriStats)))]
                              ++ [Sleep 10]) 1)) as Hge.
      simpl in Hge, Hlast. lia.
    + intros [Hz|[e He]] fuel.
      * unfold poll_value in Hz.
        destruct (reply peer (sent w)) as [resp|e] eqn:Hr; [|done].
        injection Hz as Hz.
        destruct (answered_turn peer self w resp Hr) as (_ & Hbreak & _).
        by rewrite (Hbreak Hz fuel).
      * destruct (Herr e He) as (_ & Hloop). by rewrite (Hloop fuel).
Qed.

Lemma loop_turn_is_last_iff_witness :
  poll_once draining_peer example_bot (mkWorld 0 true [] 1) =
    (Returned Continue,
     after (mkWorld 0 true [] 1)
           [Send (create_request_stats_iq example_bot);
            LogInfo "There are 5 conferences in progress"; Sleep 10] 1) ∧
  poll_once failing_stats_peer example_bot (mkWorld 0 true [] 1) =
    (Raised (mkStanzaError "cancel" "remote-server-timeout"),
     after (mkWorld 0 true [] 1) [Send (create_request_stats_iq example_bot)] 1).
Proof.
  split.
  - refine (proj1 (proj1 (proj2 (proj2
      (proj1 (loop_turn_is_last_iff draining_peer example_bot
                (mkWorld 0 true [] 1))
         (stats_result [mk_stat "threads" "12"; mk_stat "conferences" "5"])
         eq_refl))) _)).
    vm_compute. discriminate.
  - exact (proj1 (proj1 (proj2
      (loop_turn_is_last_iff failing_stats_peer example_bot
         (mkWorld 0 true [] 1)))
      (mkStanzaError "cancel" "remote-server-timeout") eq_refl)).
Defined.
